(** * mypkgs: manually installed Debian packages

    A shallow embedding of [src/mypkgs/core.py] and the properties of its
    three readers, the reconciliation step and the reporter.

    Text is modelled by [string]; every character stands for one code
    point below 256, so that the order on strings is Python's order on
    [str] and [isspace] below is [str.isspace] on that range.  A file is
    modelled by what iterating over it yields: its lines, each with its
    line terminator when it has one, and possibly an exception raised after
    them. *)

From Stdlib Require Import Ascii String.
From stdpp Require Import gmap strings list sorting.

(** ** The fragments of Python's [str] the program uses *)

Module Py.

(** [c.isspace()] for code points below 256: TAB, LF, VT, FF, CR,
    FS, GS, RS, US, space, NEL (0x85) and NBSP (0xa0). *)
Definition isspace (c : ascii) : bool :=
  let n := nat_of_ascii c in
  (((9 <=? n) && (n <=? 13)) || ((28 <=? n) && (n <=? 32))
   || (n =? 133) || (n =? 160))%nat.

(** [s.startswith(p)] *)
Definition startswith (p s : string) : bool := String.prefix p s.

(** [s[n:]] for [n >= 0] *)
Fixpoint slice_from (n : nat) (s : string) : string :=
  match n, s with
  | O, _ => s
  | S _, EmptyString => EmptyString
  | S n', String _ s' => slice_from n' s'
  end.

(** [s.lstrip()] *)
Fixpoint lstrip (s : string) : string :=
  match s with
  | EmptyString => EmptyString
  | String c s' => if isspace c then lstrip s' else s
  end.

(** [s.rstrip()]: a character is kept when it is not white space or when
    something is left after it. *)
Fixpoint rstrip (s : string) : string :=
  match s with
  | EmptyString => EmptyString
  | String c s' =>
      match rstrip s' with
      | EmptyString => if isspace c then EmptyString else String c EmptyString
      | r => String c r
      end
  end.

(** [s.strip()] *)
Definition strip (s : string) : string := rstrip (lstrip s).

(** [p in s] *)
Fixpoint contains (p s : string) : bool :=
  String.prefix p s
  || match s with
     | EmptyString => false
     | String _ s' => contains p s'
     end.

(** [s.endswith(p)] *)
Definition endswith (p s : string) : bool :=
  String.prefix (String.rev p) (String.rev s).

(** [s.split(", ")]: the pieces of [s] between the occurrences of the
    separator, scanned from the left; there is always at least one
    piece. *)
Fixpoint split_comma_space (s : string) : list string :=
  match s with
  | EmptyString => [EmptyString]
  | String c s' =>
      match c, s' with
      | ","%char, String " "%char s'' => EmptyString :: split_comma_space s''
      | _, _ =>
          match split_comma_space s' with
          | piece :: pieces => String c piece :: pieces
          | [] => [String c EmptyString]
          end
      end
  end.

(** [bool(s)] for a variable that holds [None] or a [str] *)
Definition truthy (o : option string) : bool :=
  match o with
  | Some (String _ _) => true
  | _ => false
  end.

End Py.

(** The line terminator, and a line that ends with it. *)
Definition LF : string := String "010"%char EmptyString.
Definition ln (s : string) : string := s +:+ LF.

(** ** The two regular expressions of the log scanner

    Both patterns are built from greedy runs of one character class with
    nothing after the last repetition, so the backtracking matcher of [re]
    never has to give a character back: each run is the longest one. *)

Module Re.

(** The longest prefix of [s] whose characters satisfy [p], and what
    follows it. *)
Fixpoint span (p : ascii -> bool) (s : string) : string * string :=
  match s with
  | EmptyString => (EmptyString, EmptyString)
  | String c s' =>
      if p c then let '(run, rest) := span p s' in (String c run, rest)
      else (EmptyString, s)
  end.

(** Every character of [s] satisfies [p]. *)
Fixpoint all_chars (p : ascii -> bool) (s : string) : bool :=
  match s with
  | EmptyString => true
  | String c s' => p c && all_chars p s'
  end.

(** [[a-z0-9._+-]] *)
Definition is_name_char (c : ascii) : bool :=
  let n := nat_of_ascii c in
  (((97 <=? n) && (n <=? 122)) || ((48 <=? n) && (n <=? 57))
   || (n =? 46) || (n =? 95) || (n =? 43) || (n =? 45))%nat.

(** [[0-9.:~-]] *)
Definition is_version_char (c : ascii) : bool :=
  let n := nat_of_ascii c in
  (((48 <=? n) && (n <=? 57))
   || (n =? 46) || (n =? 58) || (n =? 126) || (n =? 45))%nat.

(** [[a-z0-9._+-]+] at the start of [s]: the run and the rest. *)
Definition name (s : string) : option (string * string) :=
  match span is_name_char s with
  | (EmptyString, _) => None
  | (run, rest) => Some (run, rest)
  end.

(** [(?:=[0-9.:~-]+)?] at the start of [s]: the text matched, empty when
    the group is skipped, and the rest. *)
Definition version_opt (s : string) : string * string :=
  match s with
  | String c s' =>
      if Ascii.eqb c "=" then
        match span is_version_char s' with
        | (EmptyString, _) => (EmptyString, s)
        | (run, rest) => (String c run, rest)
        end
      else (EmptyString, s)
  | EmptyString => (EmptyString, s)
  end.

(** [[a-z0-9._+-]+(?:=[0-9.:~-]+)?] at the start of [s]: the name, the
    whole text matched, and the rest. *)
Definition entry (s : string) : option (string * string * string) :=
  match name s with
  | None => None
  | Some (n, rest) =>
      let '(v, rest') := version_opt rest in Some (n, n +:+ v, rest')
  end.

(** [(,\s*[a-z0-9._+-]+(?:=[0-9.:~-]+)?)*] at the start of [s]: the text
    matched.  Every repetition consumes a comma and a name, so [fuel]
    repetitions are enough for a string of [fuel] characters. *)
Fixpoint more_entries (fuel : nat) (s : string) : string :=
  match fuel, s with
  | S fuel', String c s' =>
      if Ascii.eqb c "," then
        let '(ws, s'') := span Py.isspace s' in
        match entry s'' with
        | Some (_, text, rest) =>
            String c (ws +:+ text +:+ more_entries fuel' rest)
        | None => EmptyString
        end
      else EmptyString
  | _, _ => EmptyString
  end.

(** [install_pattern.match(s)]: group [packages] of a match that starts at
    the first character of [s]. *)
Definition install_pattern_match (s : string) : option string :=
  if Py.startswith "install" s then
    match span Py.isspace (Py.slice_from 7 s) with
    | (EmptyString, _) => None
    | (_, s') =>
        match entry s' with
        | Some (_, text, rest) =>
            Some (text +:+ more_entries (String.length rest) rest)
        | None => None
        end
    end
  else None.

(** [install_pattern.search(s)]: group [packages] of the leftmost match. *)
Fixpoint install_pattern_search (s : string) : option string :=
  match install_pattern_match s with
  | Some packages => Some packages
  | None =>
      match s with
      | EmptyString => None
      | String _ s' => install_pattern_search s'
      end
  end.

(** [package_name_pattern.match(s)]: group 1 of the match. *)
Definition package_name_pattern_match (s : string) : option string :=
  match entry s with
  | Some (n, _, _) => Some n
  | None => None
  end.

End Re.

(** ** Files, exceptions and the state of a run *)

(** The exceptions that reading a text file or a gzip stream can raise.
    [IOError] is another name of [OSError]; [gzip.BadGzipFile] is a subclass
    of it; the other three are not. *)
Inductive exn : Type :=
| OSError (msg : string)
| BadGzipFile (msg : string)
| EOFError (msg : string)
| ZlibError (msg : string)
| UnicodeDecodeError (msg : string).

(** [str(e)] *)
Definition exn_str (e : exn) : string :=
  match e with
  | OSError msg | BadGzipFile msg | EOFError msg | ZlibError msg
  | UnicodeDecodeError msg => msg
  end.

(** [isinstance(e, OSError)] *)
Definition is_OSError (e : exn) : bool :=
  match e with
  | OSError _ | BadGzipFile _ => true
  | _ => false
  end.

(** [isinstance(e, gzip.BadGzipFile)] *)
Definition is_BadGzipFile (e : exn) : bool :=
  match e with
  | BadGzipFile _ => true
  | _ => false
  end.

(** What opening a file and iterating over it yields: the lines read, and
    the exception that ends the reading when there is one ([open] itself
    failing is the case of no line). *)
Record stream : Type := Stream {
  lines : list string;
  failure : option exn
}.

(** The three inputs.  A fixed path holds a file or does not exist;
    [history_logs] lists what [glob.glob] returns, in its order. *)
Record filesystem : Type := Filesystem {
  extended_states : option stream;
  history_logs : list (string * stream);
  status : option stream
}.

(** The state a run can observe or change: the files, and the lines
    printed on standard output so far. *)
Record world : Type := World {
  fs : filesystem;
  stdout : list string
}.

Inductive result (A : Type) : Type :=
| Ok (a : A)
| Raise (e : exn).
Arguments Ok {A} a.
Arguments Raise {A} e.

(** Computations that read and change the state and may raise. *)
Definition M (A : Type) : Type := world -> result A * world.

Definition ret {A} (a : A) : M A := fun w => (Ok a, w).

Definition bind {A B} (m : M A) (k : A -> M B) : M B :=
  fun w =>
    match m w with
    | (Ok a, w') => k a w'
    | (Raise e, w') => (Raise e, w')
    end.

Definition raise {A} (e : exn) : M A := fun w => (Raise e, w).

(** [try: body except (classes) as e: handler(e)] *)
Definition try_except {A} (body : M A) (catches : exn -> bool)
    (handler : exn -> M A) : M A :=
  fun w =>
    match body w with
    | (Raise e, w') => if catches e then handler e w' else (Raise e, w')
    | r => r
    end.

(** Reading the state. *)
Definition reads {A} (f : filesystem -> A) : M A := fun w => (Ok (f (fs w)), w).

(** [print(s)] *)
Definition print (s : string) : M unit :=
  fun w => (Ok tt, World (fs w) (stdout w ++ [s])).

(** [for x in l: body(x)] *)
Fixpoint for_each {A} (l : list A) (body : A -> M unit) : M unit :=
  match l with
  | [] => ret tt
  | x :: l' => bind (body x) (fun _ => for_each l' body)
  end.

(** The end of an iteration over a file: nothing, or the exception. *)
Definition end_of (f : stream) : M unit :=
  match failure f with
  | None => ret tt
  | Some e => raise e
  end.

Notation "'let*' x ':=' m 'in' k" := (bind m (fun x => k))
  (at level 10, x name, m at level 100, k at level 200).
Notation "m '>>' k" := (bind m (fun _ => k))
  (at level 100, k at level 200, right associativity).

(** ** [_get_manual_installed_packages_from_extended_states] *)

Definition extended_states_file : string := "/var/lib/dpkg/extended_states".

Module ExtendedStates.

(** The variables of the loop over the lines. *)
Record vars : Type := Vars {
  package_name : option string;
  auto_installed : bool;
  manual_packages : gset string
}.

Definition init : vars := Vars None false ∅.

(** The body of [for line in f]. *)
Definition step (v : vars) (line : string) : vars :=
  if Py.startswith "Package: " line then
    Vars (Some (Py.strip (Py.slice_from 9 line))) false (manual_packages v)
  else if Py.startswith "Auto-Installed: " line then
    Vars (package_name v)
         (String.eqb (Py.strip (Py.slice_from 16 line)) "yes")
         (manual_packages v)
  else if Py.truthy (package_name v) && negb (auto_installed v) then
    Vars (package_name v) (auto_installed v)
         ({[ default "" (package_name v) ]} ∪ manual_packages v)
  else v.

(** The set the loop has built once every line is read. *)
Definition parse (ls : list string) : gset string :=
  manual_packages (foldl step init ls).

End ExtendedStates.

Definition error_reading (file : string) (e : exn) : string :=
  "Error reading " +:+ file +:+ ": " +:+ exn_str e.

Definition _get_manual_installed_packages_from_extended_states
  : M (gset string) :=
  let* file := reads extended_states in
  match file with
  | None => ret ∅
  | Some f =>
      try_except
        (let manual_packages := ExtendedStates.parse (lines f) in
         end_of f >> ret manual_packages)
        is_OSError
        (fun e => print (error_reading extended_states_file e) >> ret ∅)
  end.

(** ** [_get_manual_installed_packages_from_logs] *)

Module Logs.

(** The body of [for package_entry in package_list]. *)
Definition add_entry (manual_packages : gset string)
    (package_entry : string) : gset string :=
  match Re.package_name_pattern_match package_entry with
  | Some group1 =>
      if negb (String.eqb group1 ".") then {[ group1 ]} ∪ manual_packages
      else manual_packages
  | None => manual_packages
  end.

(** The body of [for line in f]; it is the same in both branches. *)
Definition scan_line (manual_packages : gset string) (line : string)
  : gset string :=
  if Py.contains " install " line then
    match Re.install_pattern_search line with
    | Some packages_str =>
        let package_list := Py.split_comma_space packages_str in
        foldl add_entry manual_packages package_list
    | None => manual_packages
    end
  else manual_packages.

(** The classes of the [except] clause of each branch. *)
Definition catches (log_file : string) (e : exn) : bool :=
  if Py.endswith ".gz" log_file then is_OSError e || is_BadGzipFile e
  else is_OSError e.

(** The body of [for log_file in log_files].  The set is updated in
    place line by line, so what was added before an exception stays. *)
Definition scan_file (manual_packages : gset string)
    (log : string * stream) : M (gset string) :=
  let manual_packages := foldl scan_line manual_packages (lines log.2) in
  try_except (end_of log.2) (catches log.1) (fun _ => ret tt)
  >> ret manual_packages.

Fixpoint scan_files (manual_packages : gset string)
    (log_files : list (string * stream)) : M (gset string) :=
  match log_files with
  | [] => ret manual_packages
  | log :: log_files' =>
      let* manual_packages := scan_file manual_packages log in
      scan_files manual_packages log_files'
  end.

End Logs.

Definition _get_manual_installed_packages_from_logs : M (gset string) :=
  let* log_files := reads history_logs in
  Logs.scan_files ∅ log_files.

(** ** [_get_auto_installed_packages] *)

Definition status_file : string := "/var/lib/dpkg/status".

Module Status.

Record vars : Type := Vars {
  package_name : option string;
  auto_packages : gset string
}.

Definition init : vars := Vars None ∅.

(** The body of [for line in f]. *)
Definition step (v : vars) (line : string) : vars :=
  if Py.startswith "Package: " line then
    Vars (Some (Py.strip (Py.slice_from 9 line))) (auto_packages v)
  else if Py.startswith "Status: " line && Py.contains "auto" line then
    if Py.truthy (package_name v) then
      Vars (package_name v)
           ({[ default "" (package_name v) ]} ∪ auto_packages v)
    else v
  else v.

Definition parse (ls : list string) : gset string :=
  auto_packages (foldl step init ls).

End Status.

Definition _get_auto_installed_packages : M (gset string) :=
  let* file := reads status in
  match file with
  | None => ret ∅
  | Some f =>
      try_except
        (let auto_packages := Status.parse (lines f) in
         end_of f >> ret auto_packages)
        is_OSError
        (fun e => print (error_reading status_file e) >> ret ∅)
  end.

(** ** [get_manual_installed_packages] and [main] *)

Definition get_manual_installed_packages : M (gset string) :=
  let manual_packages := ∅ in
  let* manual_packages_extended_states :=
    _get_manual_installed_packages_from_extended_states in
  let manual_packages := manual_packages ∪ manual_packages_extended_states in
  let* manual_packages_logs := _get_manual_installed_packages_from_logs in
  let manual_packages := manual_packages ∪ manual_packages_logs in
  let* auto_installed_packages := _get_auto_installed_packages in
  let manual_packages := manual_packages ∖ auto_installed_packages in
  ret manual_packages.

(** [sorted(s)] for a set of [str]: its elements in increasing order. *)
Definition sorted (s : gset string) : list string :=
  merge_sort String.le (elements s).

Definition none_found : string := "No manually installed packages found.".

(** The two branches of [main] after the set is computed. *)
Definition report (manual_packages : gset string) : M unit :=
  if bool_decide (manual_packages ≠ ∅) then
    for_each (sorted manual_packages) print
  else print none_found.

Definition main : M unit :=
  let* manual_packages := get_manual_installed_packages in
  report manual_packages.

(** A run of the command: [main] returns and the interpreter exits with
    status 0, or an exception leaves [main] and it exits with status 1. *)
Record process : Type := Process {
  output : list string;
  exit_status : Z
}.

Definition run (files : filesystem) : process :=
  match main (World files []) with
  | (Ok _, w) => Process (stdout w) 0
  | (Raise _, w) => Process (stdout w) 1
  end.

(** ** The set objects of [get_manual_installed_packages]

    [set.update] and [set.difference_update] change the object they are
    called on.  To see which objects the reconciliation changes, the sets
    are placed in a store and named by references. *)

Module PySet.

Definition ref : Type := nat.

(** [set()] *)
Definition new (h : gmap nat (gset string)) : ref * gmap nat (gset string) :=
  let r := fresh (dom h) in (r, <[r := ∅]> h).

(** [dst.update(src)] *)
Definition update (dst src : ref) (h : gmap nat (gset string))
  : gmap nat (gset string) :=
  match h !! dst, h !! src with
  | Some d, Some s => <[dst := d ∪ s]> h
  | _, _ => h
  end.

(** [dst.difference_update(src)] *)
Definition difference_update (dst src : ref) (h : gmap nat (gset string))
  : gmap nat (gset string) :=
  match h !! dst, h !! src with
  | Some d, Some s => <[dst := d ∖ s]> h
  | _, _ => h
  end.

End PySet.

(** The statements of [get_manual_installed_packages] on the store, the
    three reader calls replaced by the objects they returned. *)
Definition reconcile (manual_packages_extended_states manual_packages_logs
    auto_installed_packages : PySet.ref) (h : gmap nat (gset string))
  : PySet.ref * gmap nat (gset string) :=
  let '(manual_packages, h) := PySet.new h in
  let h := PySet.update manual_packages manual_packages_extended_states h in
  let h := PySet.update manual_packages manual_packages_logs h in
  let h := PySet.difference_update manual_packages auto_installed_packages h in
  (manual_packages, h).

(** ** Notions used to state the properties *)

(** A computation that only reads the files and only adds to what is
    printed: from given files its result and the lines it prints are
    fixed, whatever was printed before. *)
Definition read_only {A} (m : M A) : Prop :=
  forall files, exists r out,
    forall pre, m (World files pre) = (r, World files (pre ++ out)).

(** The message a reader prints for a file whose reading ends with an
    [OSError]. *)
Definition diagnostic (file : string) (f : option stream) : list string :=
  match f with
  | Some (Stream _ (Some e)) =>
      if is_OSError e then [error_reading file e] else []
  | _ => []
  end.

(** The lines [report] prints for a set. *)
Definition report_lines (s : gset string) : list string :=
  if bool_decide (s ≠ ∅) then sorted s else [none_found].

(** Every failure of every input file is an [OSError] (or one of its
    subclasses). *)
Definition os_failure (f : stream) : bool :=
  match failure f with
  | Some e => is_OSError e
  | None => true
  end.

Definition os_failures_only (files : filesystem) : bool :=
  from_option os_failure true (extended_states files)
  && forallb (fun log => os_failure log.2) (history_logs files)
  && from_option os_failure true (status files).

(** The lines of all log files, in the order they are read. *)
Definition log_lines (logs : list (string * stream)) : list string :=
  concat (map (fun log => lines log.2) logs).

(** Standard output carries the sorted package list or the fixed message
    and nothing else. *)
Definition stdout_is_report (files : filesystem) : Prop :=
  forall s w',
    get_manual_installed_packages (World files []) = (Ok s, w') ->
    output (run files) = report_lines s.

(** The name a [Package: ] line gives. *)
Definition package_of (line : string) : string :=
  Py.strip (Py.slice_from 9 line).

(** A file whose last line is a [Package: ] line does not have that
    package in what the extended-states reader returns. *)
Definition final_package_absent (ls : list string) : Prop :=
  forall front line,
    ls = front ++ [line] ->
    Py.startswith "Package: " line = true ->
    package_of line ∉ ExtendedStates.parse ls.

(** *** Records of a status file *)

(** A [Package: ] line that names [p]. *)
Definition is_package_line (p line : string) : bool :=
  Py.startswith "Package: " line && String.eqb (package_of line) p.

(** A [Status: ] line that contains the marker of automatic installation. *)
Definition is_auto_status (line : string) : bool :=
  Py.startswith "Status: " line && Py.contains "auto" line.

(** Blank lines separate the records of a file. *)
Definition is_blank (line : string) : bool :=
  String.eqb (Py.strip line) "".

Fixpoint records (ls : list string) : list (list string) :=
  match ls with
  | [] => [[]]
  | line :: ls' =>
      if is_blank line then [] :: records ls'
      else
        match records ls' with
        | r :: rs => (line :: r) :: rs
        | [] => [[line]]
        end
  end.

(** Some record of the file has a [Package: ] line that names [p] and a
    [Status: ] line with the marker: the record of [p] is flagged. *)
Definition own_record_flagged (ls : list string) (p : string) : bool :=
  existsb (fun r => existsb (is_package_line p) r && existsb is_auto_status r)
          (records ls).

(** A name is in the auto-install set exactly when its own record is
    flagged. *)
Definition auto_iff_own_record (ls : list string) : Prop :=
  forall p, p ∈ Status.parse ls <-> own_record_flagged ls p = true.

(** The lines start, after lines that are not [Package: ] lines, with a
    flagged [Status: ] line. *)
Definition status_follows (ls : list string) : Prop :=
  exists between st back,
    ls = between ++ st :: back
    /\ Forall (fun l => Py.startswith "Package: " l = false) between
    /\ is_auto_status st = true.

(** A [Package: ] line that names [p] is followed, before any other
    [Package: ] line, by a flagged [Status: ] line. *)
Definition package_then_status (p : string) (ls : list string) : Prop :=
  exists front pkg rest,
    ls = front ++ pkg :: rest
    /\ is_package_line p pkg = true
    /\ status_follows rest.

(** A failure while an input file is read leaves its reader with the empty
    set, and the command exits with status 0. *)
Definition failures_contained (files : filesystem) : Prop :=
  (forall f e, extended_states files = Some f -> failure f = Some e ->
     (_get_manual_installed_packages_from_extended_states
        (World files [])).1 = Ok ∅)
  /\ (forall log e, log ∈ history_logs files -> failure log.2 = Some e ->
     (_get_manual_installed_packages_from_logs (World files [])).1 = Ok ∅)
  /\ (forall f e, status files = Some f -> failure f = Some e ->
     (_get_auto_installed_packages (World files [])).1 = Ok ∅)
  /\ exit_status (run files) = 0%Z.

(** ** Inputs used in the examples *)

(** [curl] without an [Auto-Installed] line and [libssl1.1] marked as
    automatically installed in both record files; no log file. *)
Definition curl_files : filesystem :=
  Filesystem
    (Some (Stream [ln "Package: curl"; ln "";
                   ln "Package: libssl1.1"; ln "Auto-Installed: yes"; ln ""]
                  None))
    []
    (Some (Stream [ln "Package: libssl1.1"; ln "Status: install ok auto";
                   ln ""]
                  None)).

(** No record file and one log with one install entry. *)
Definition vim_files : filesystem :=
  Filesystem None
    [("/var/log/apt/history.log",
      Stream [ln "Commandline: apt install vim, vim-common=2:8.2 --yes"] None)]
    None.

(** A store that holds the three sets the readers return for
    [curl_files]. *)
Definition curl_store : gmap nat (gset string) :=
  {[ 0 := {[ "curl" ]}; 1 := ∅; 2 := {[ "libssl1.1" ]} ]}.

(** The extended-states file exists and cannot be opened. *)
Definition denied_files : filesystem :=
  Filesystem (Some (Stream [] (Some (OSError "[Errno 13] Permission denied"))))
    [] None.

(** An extended-states file with the stanzas apt writes: a field stands
    between the name and the flag. *)
Definition arch_lines : list string :=
  [ln "Package: a"; ln "Architecture: amd64"; ln "Auto-Installed: yes"; ln ""].

(** An extended-states file that ends with its last record. *)
Definition unterminated_lines : list string :=
  [ln "Package: b"; ln "Auto-Installed: no"].

(** An extended-states file with two records of one name, the second of
    them cut after its first line. *)
Definition repeated_lines : list string :=
  [ln "Package: a"; ln ""; ln "Package: a"].

Definition extended_states_only (ls : list string) : filesystem :=
  Filesystem (Some (Stream ls None)) [] None.

(** A status file whose record has its [Status] field before its
    [Package] field. *)
Definition status_first_lines : list string :=
  [ln "Status: install ok auto"; ln "Package: a"; ln ""].

(** A status file with a flagged record that has no [Package] field. *)
Definition nameless_record_lines : list string :=
  [ln "Package: a"; ln "Status: install ok installed"; ln "";
   ln "Status: install ok auto"; ln ""].

(** A log whose reading breaks after its first line. *)
Definition broken_log_files : filesystem :=
  Filesystem None
    [("/var/log/apt/history.log",
      Stream [ln "Commandline: apt install vim"]
             (Some (OSError "[Errno 5] Input/output error")))]
    None.

(** An extended-states file that is not valid UTF-8. *)
Definition undecodable_files : filesystem :=
  Filesystem
    (Some (Stream [] (Some (UnicodeDecodeError
                              "'utf-8' codec can't decode byte 0xff"))))
    [] None.

(** ** Notions used for the further properties *)

(** What [strip] gives: a string it leaves as it is. *)
Definition trimmed_or_empty (n : string) : Prop := Py.strip n = n.

Definition trimmed (n : string) : Prop := n ≠ "" /\ Py.strip n = n.

(** A name the log scanner accepts: not empty, made of the characters of
    [[a-z0-9._+-]], and not a lone dot. *)
Definition log_name (n : string) : Prop :=
  n ≠ "" /\ Re.all_chars Re.is_name_char n = true /\ n ≠ ".".

(** A current log and a rotated one whose compressed stream breaks after
    its first line. *)
Definition current_log : string * stream :=
  ("/var/log/apt/history.log", Stream [ln "Commandline: apt install vim"] None).

Definition rotated_log : string * stream :=
  ("/var/log/apt/history.log.1.gz",
   Stream [ln "Commandline: apt-get install curl=7.68.0-1, git"]
          (Some (BadGzipFile "Not a gzipped file"))).

Definition logs_only (logs : list (string * stream)) : filesystem :=
  Filesystem None logs None.

(** The set a reader of a record file returns when it returns: what it
    parsed from a file read to its end, and nothing for a missing file or
    after a caught failure. *)
Definition read_set (parse : list string -> gset string) (f : option stream)
  : gset string :=
  match f with
  | Some (Stream ls None) => parse ls
  | _ => ∅
  end.

(** The status file is missing, or its reading ends with an [OSError]. *)
Definition status_unavailable (files : filesystem) : bool :=
  match status files with
  | None => true
  | Some f =>
      match failure f with
      | Some e => is_OSError e
      | None => false
      end
  end.

(** A status file that flags [curl] and cannot be read to its end. *)
Definition unreadable_status_files : filesystem :=
  Filesystem
    (Some (Stream [ln "Package: curl"; ln ""] None))
    [current_log]
    (Some (Stream [ln "Package: curl"; ln "Status: install ok auto"]
                  (Some (OSError "[Errno 5] Input/output error")))).

(** *** Lines of an extended-states file *)

Definition is_flag_line (line : string) : bool :=
  Py.startswith "Auto-Installed: " line.

(** The value an [Auto-Installed: ] line gives to the flag. *)
Definition flag_of (line : string) : bool :=
  String.eqb (Py.strip (Py.slice_from 16 line)) "yes".

(** A line that is neither a [Package: ] nor an [Auto-Installed: ] line:
    another field, or a blank line. *)
Definition is_other_line (line : string) : bool :=
  negb (Py.startswith "Package: " line) && negb (is_flag_line line).

(** The flag after a line, and after some lines: the last
    [Auto-Installed: ] line decides. *)
Definition flag_step (flag : bool) (line : string) : bool :=
  if is_flag_line line then flag_of line else flag.

Definition flag_after (flag : bool) (ls : list string) : bool :=
  foldl flag_step flag ls.

(** Before any other [Package: ] line the lines have a line that is
    neither kind, read while the flag is off. *)
Definition added_after (flag : bool) (ls : list string) : Prop :=
  exists between other back,
    ls = between ++ other :: back
    /\ Forall (fun l => Py.startswith "Package: " l = false) between
    /\ is_other_line other = true
    /\ flag_after flag between = false.

Definition package_then_added (p : string) (ls : list string) : Prop :=
  exists front pkg rest,
    ls = front ++ pkg :: rest
    /\ is_package_line p pkg = true
    /\ added_after false rest.

(** A record in the plain layout: the [Package: ] line, then the
    [Auto-Installed: ] line when there is one, then the other fields and
    the blank line that ends the record. *)
Record plain_record : Type := PlainRecord {
  package_line : string;
  flag_line : option string;
  other_lines : list string
}.

Definition plain_record_lines (r : plain_record) : list string :=
  package_line r :: option_list (flag_line r) ++ other_lines r.

Definition plain_record_ok (r : plain_record) : bool :=
  Py.startswith "Package: " (package_line r)
  && from_option is_flag_line true (flag_line r)
  && forallb is_other_line (other_lines r)
  && negb (bool_decide (other_lines r = [])).

Definition plain_record_flag (r : plain_record) : bool :=
  from_option flag_of false (flag_line r).

(** The records of [curl_files]. *)
Definition curl_records : list plain_record :=
  [PlainRecord (ln "Package: curl") None [ln ""];
   PlainRecord (ln "Package: libssl1.1") (Some (ln "Auto-Installed: yes"))
     [ln ""]].

(** A record of a status file as dpkg writes it: the [Package: ] line
    first, then the other fields and the blank line, none of them a
    [Package: ] line. *)
Record named_record : Type := NamedRecord {
  name_line : string;
  field_lines : list string
}.

Definition named_record_lines (r : named_record) : list string :=
  name_line r :: field_lines r.

Definition named_record_ok (r : named_record) : bool :=
  Py.startswith "Package: " (name_line r)
  && forallb (fun l => negb (Py.startswith "Package: " l)) (field_lines r).

(** Two records, the second of them flagged. *)
Definition status_records : list named_record :=
  [NamedRecord (ln "Package: curl")
     [ln "Status: install ok installed"; ln "Priority: optional"; ln ""];
   NamedRecord (ln "Package: libssl1.1")
     [ln "Status: install ok auto"; ln "Priority: optional"; ln ""]].

(** *** Install lists of a log line *)

(** An entry of an install list: a name and, when it has one, a version;
    its text is [name] or [name=version]. *)
Definition render_entry (e : string * option string) : string :=
  match e.2 with
  | Some version => e.1 +:+ "=" +:+ version
  | None => e.1
  end.

Definition entry_ok (e : string * option string) : bool :=
  negb (String.eqb e.1 "") && Re.all_chars Re.is_name_char e.1
  && match e.2 with
     | Some version =>
         negb (String.eqb version "")
         && Re.all_chars Re.is_version_char version
     | None => true
     end.

(** The text of a list: its entries with a comma and a space between
    them. *)
Fixpoint more_rendered (es : list (string * option string)) : string :=
  match es with
  | [] => ""
  | e :: es' => ", " +:+ render_entry e +:+ more_rendered es'
  end.

Definition install_list (e : string * option string)
    (es : list (string * option string)) : string :=
  render_entry e +:+ more_rendered es.

(** What follows a list on its line: nothing, or white space first. *)
Definition ends_list (rest : string) : bool :=
  match rest with
  | EmptyString => true
  | String c _ => Py.isspace c
  end.

(** [", ".join(l)] *)
Fixpoint join_comma_space (l : list string) : string :=
  match l with
  | [] => ""
  | [piece] => piece
  | piece :: l' => piece +:+ ", " +:+ join_comma_space l'
  end.

(** * Properties *)

(** ** The state monad *)

Section Monad.
Context {A B : Type}.

Lemma bind_ok (m : M A) (k : A -> M B) w a w' :
  m w = (Ok a, w') -> bind m k w = k a w'.
Proof. intros H. unfold bind. by rewrite H. Qed.

Lemma bind_raise (m : M A) (k : A -> M B) w e w' :
  m w = (Raise e, w') -> bind m k w = (Raise e, w').
Proof. intros H. unfold bind. by rewrite H. Qed.

Lemma read_only_ret (a : A) : read_only (ret a).
Proof. intros files. exists (Ok a), []. intros pre. by rewrite app_nil_r. Qed.

Lemma read_only_raise (e : exn) : read_only (@raise A e).
Proof. intros files. exists (Raise e), []. intros pre. by rewrite app_nil_r. Qed.

Lemma read_only_reads (f : filesystem -> A) : read_only (reads f).
Proof. intros files. exists (Ok (f files)), []. intros pre. by rewrite app_nil_r. Qed.

Lemma read_only_bind (m : M A) (k : A -> M B) :
  read_only m -> (forall a, read_only (k a)) -> read_only (bind m k).
Proof.
  intros Hm Hk files. destruct (Hm files) as ([a|e] & out & Hrun).
  - destruct (Hk a files) as (r & out' & Hrun').
    exists r, (out ++ out'). intros pre.
    unfold bind. rewrite Hrun, Hrun'. by rewrite app_assoc.
  - exists (Raise e), out. intros pre. unfold bind. by rewrite Hrun.
Qed.

Lemma read_only_try_except (body : M A) catches handler :
  read_only body -> (forall e, read_only (handler e)) ->
  read_only (try_except body catches handler).
Proof.
  intros Hm Hk files. destruct (Hm files) as ([a|e] & out & Hrun).
  - exists (Ok a), out. intros pre. unfold try_except. by rewrite Hrun.
  - destruct (catches e) eqn:Hc.
    + destruct (Hk e files) as (r & out' & Hrun').
      exists r, (out ++ out'). intros pre.
      unfold try_except. rewrite Hrun, Hc, Hrun'. by rewrite app_assoc.
    + exists (Raise e), out. intros pre.
      unfold try_except. by rewrite Hrun, Hc.
Qed.
End Monad.

Lemma read_only_print s : read_only (print s).
Proof. intros files. by exists (Ok tt), [s]. Qed.

Lemma read_only_end_of f : read_only (end_of f).
Proof.
  unfold end_of. destruct (failure f);
    [apply read_only_raise | apply read_only_ret].
Qed.

Lemma read_only_for_each {A} (l : list A) body :
  (forall x, read_only (body x)) -> read_only (for_each l body).
Proof.
  intros Hbody. induction l as [|x l IH]; simpl.
  - apply read_only_ret.
  - apply read_only_bind; auto.
Qed.

Create HintDb read_only.
#[local] Hint Resolve read_only_ret read_only_raise read_only_reads
  read_only_print read_only_end_of : read_only.
#[local] Hint Extern 2 (read_only (bind _ _)) =>
  apply read_only_bind; [|intros ?] : read_only.
#[local] Hint Extern 2 (read_only (try_except _ _ _)) =>
  apply read_only_try_except; [|intros ?] : read_only.
#[local] Hint Extern 2 (read_only (for_each _ _)) =>
  apply read_only_for_each; intros ? : read_only.

Lemma read_only_extended_states :
  read_only _get_manual_installed_packages_from_extended_states.
Proof.
  unfold _get_manual_installed_packages_from_extended_states.
  apply read_only_bind; [auto with read_only|].
  intros [f|]; auto 10 with read_only.
Qed.

Lemma read_only_scan_files log_files :
  forall manual_packages, read_only (Logs.scan_files manual_packages log_files).
Proof.
  induction log_files as [|log log_files IH]; intros mp; simpl.
  - auto with read_only.
  - apply read_only_bind; [|auto]. unfold Logs.scan_file.
    auto 10 with read_only.
Qed.

Lemma read_only_logs : read_only _get_manual_installed_packages_from_logs.
Proof.
  unfold _get_manual_installed_packages_from_logs.
  apply read_only_bind; [auto with read_only|].
  intros log_files. apply read_only_scan_files.
Qed.

Lemma read_only_auto : read_only _get_auto_installed_packages.
Proof.
  unfold _get_auto_installed_packages.
  apply read_only_bind; [auto with read_only|].
  intros [f|]; auto 10 with read_only.
Qed.

Lemma read_only_get_manual_installed_packages :
  read_only get_manual_installed_packages.
Proof.
  unfold get_manual_installed_packages. cbv zeta.
  apply read_only_bind; [apply read_only_extended_states | intros es].
  apply read_only_bind; [apply read_only_logs | intros logs].
  apply read_only_bind; [apply read_only_auto | intros auto].
  apply read_only_ret.
Qed.

Lemma read_only_report s : read_only (report s).
Proof. unfold report. case_bool_decide; auto 10 with read_only. Qed.

Lemma read_only_main : read_only main.
Proof.
  unfold main. apply read_only_bind;
    auto using read_only_get_manual_installed_packages, read_only_report.
Qed.

(** ** What each reader returns and prints *)

(** The readers of the two fixed paths have the same shape: nothing for a
    missing file, the parsed set when the reading ends well, the empty set
    and one printed message on an [OSError], and any other exception is
    left to the caller. *)
Lemma extended_states_reader_run files pre :
  _get_manual_installed_packages_from_extended_states (World files pre) =
  match extended_states files with
  | None => (Ok ∅, World files pre)
  | Some f =>
      match failure f with
      | None => (Ok (ExtendedStates.parse (lines f)), World files pre)
      | Some e =>
          if is_OSError e then
            (Ok ∅, World files (pre ++ [error_reading extended_states_file e]))
          else (Raise e, World files pre)
      end
  end.
Proof.
  unfold _get_manual_installed_packages_from_extended_states, bind, reads,
    try_except, end_of; simpl.
  destruct (extended_states files) as [[ls [e|]]|]; simpl; [|done..].
  by destruct (is_OSError e).
Qed.

Lemma auto_reader_run files pre :
  _get_auto_installed_packages (World files pre) =
  match status files with
  | None => (Ok ∅, World files pre)
  | Some f =>
      match failure f with
      | None => (Ok (Status.parse (lines f)), World files pre)
      | Some e =>
          if is_OSError e then
            (Ok ∅, World files (pre ++ [error_reading status_file e]))
          else (Raise e, World files pre)
      end
  end.
Proof.
  unfold _get_auto_installed_packages, bind, reads, try_except, end_of; simpl.
  destruct (status files) as [[ls [e|]]|]; simpl; [|done..].
  by destruct (is_OSError e).
Qed.

(** The log scanner prints nothing.  A file that ends with an exception of
    the classes of its [except] clause is left there and the scan goes
    on. *)
Lemma catches_OSError log_file e : Logs.catches log_file e = is_OSError e.
Proof.
  unfold Logs.catches. destruct (Py.endswith ".gz" log_file); [|done].
  by destruct e.
Qed.

Lemma scan_file_run manual_packages log w :
  Logs.scan_file manual_packages log w =
  match failure log.2 with
  | Some e =>
      if is_OSError e then
        (Ok (foldl Logs.scan_line manual_packages (lines log.2)), w)
      else (Raise e, w)
  | None => (Ok (foldl Logs.scan_line manual_packages (lines log.2)), w)
  end.
Proof.
  unfold Logs.scan_file, bind, try_except, end_of.
  destruct (failure log.2) as [e|]; simpl; [|done].
  rewrite catches_OSError. by destruct (is_OSError e).
Qed.

Lemma scan_files_os_failures log_files : forall manual_packages w,
  forallb (fun log => os_failure log.2) log_files = true ->
  Logs.scan_files manual_packages log_files w =
  (Ok (foldl Logs.scan_line manual_packages (log_lines log_files)), w).
Proof.
  induction log_files as [|log log_files IH]; intros mp w Hos; [done|].
  cbn [forallb] in Hos. apply andb_prop in Hos as [Hlog Hos].
  cbn [Logs.scan_files]. unfold bind. rewrite scan_file_run.
  unfold log_lines. cbn [map concat]. rewrite foldl_app.
  unfold os_failure in Hlog.
  destruct (failure log.2) as [e|]; [rewrite Hlog|]; by apply IH.
Qed.

(** The pipeline, from what the three readers return. *)
Lemma get_manual_installed_packages_run w es w1 logs w2 auto w3 :
  _get_manual_installed_packages_from_extended_states w = (Ok es, w1) ->
  _get_manual_installed_packages_from_logs w1 = (Ok logs, w2) ->
  _get_auto_installed_packages w2 = (Ok auto, w3) ->
  get_manual_installed_packages w = (Ok ((es ∪ logs) ∖ auto), w3).
Proof.
  intros Hes Hlogs Hauto. unfold get_manual_installed_packages. cbv zeta.
  rewrite (bind_ok _ _ _ _ _ Hes), (bind_ok _ _ _ _ _ Hlogs),
    (bind_ok _ _ _ _ _ Hauto).
  unfold ret. by rewrite (left_id_L ∅ (∪)).
Qed.

Lemma get_manual_installed_packages_inv w s w' :
  get_manual_installed_packages w = (Ok s, w') ->
  exists es w1 logs w2 auto,
    _get_manual_installed_packages_from_extended_states w = (Ok es, w1)
    /\ _get_manual_installed_packages_from_logs w1 = (Ok logs, w2)
    /\ _get_auto_installed_packages w2 = (Ok auto, w')
    /\ s = (es ∪ logs) ∖ auto.
Proof.
  unfold get_manual_installed_packages, bind. cbv zeta.
  destruct (_get_manual_installed_packages_from_extended_states w)
    as [[es|e] w1] eqn:Hes; [|done].
  destruct (_get_manual_installed_packages_from_logs w1)
    as [[logs|e] w2] eqn:Hlogs; [|done].
  destruct (_get_auto_installed_packages w2) as [[auto|e] w3] eqn:Hauto;
    [|done].
  unfold ret. intros [= <- <-]. exists es, w1, logs, w2, auto.
  by rewrite (left_id_L ∅ (∪)).
Qed.

(** ** The reconciliation *)

Lemma new_fresh (h : gmap nat (gset string)) : h !! (PySet.new h).1 = None.
Proof. simpl. apply not_elem_of_dom, is_fresh. Qed.

(** C1. The pipeline returns the union of the sets of the first two readers
    minus the set of the third.  On the store of set objects the
    reconciliation is a total function that puts this set in a new object
    and leaves every other object, the three inputs among them, as it
    was. *)
Theorem C1_reconcile_union_minus
    (w w1 w2 w3 : world) (es logs auto : gset string)
    (h : gmap nat (gset string)) (a b c : PySet.ref) :
  _get_manual_installed_packages_from_extended_states w = (Ok es, w1) ->
  _get_manual_installed_packages_from_logs w1 = (Ok logs, w2) ->
  _get_auto_installed_packages w2 = (Ok auto, w3) ->
  h !! a = Some es -> h !! b = Some logs -> h !! c = Some auto ->
  get_manual_installed_packages w = (Ok ((es ∪ logs) ∖ auto), w3)
  /\ exists r h',
       reconcile a b c h = (r, h')
       /\ h !! r = None
       /\ h' !! r = Some ((es ∪ logs) ∖ auto)
       /\ h' !! a = Some es /\ h' !! b = Some logs /\ h' !! c = Some auto
       /\ forall x, x ≠ r -> h' !! x = h !! x.
Proof.
  intros Hes Hlogs Hauto Ha Hb Hc. split.
  { by apply (get_manual_installed_packages_run w es w1 logs w2). }
  pose proof (new_fresh h) as Hfresh. simpl in Hfresh.
  set (r := fresh (dom h)) in *.
  assert (r ≠ a /\ r ≠ b /\ r ≠ c) as (Hra & Hrb & Hrc)
    by (repeat split; intros ->; congruence).
  eexists r, _. split.
  { unfold reconcile, PySet.new, PySet.update, PySet.difference_update.
    fold r. cbv zeta.
    repeat (rewrite ?lookup_insert_eq, ?lookup_insert_ne by done;
            rewrite ?Ha, ?Hb, ?Hc; cbv iota beta).
    rewrite !insert_insert_eq. reflexivity. }
  rewrite (left_id_L ∅ (∪)). split; [done|].
  split; [by rewrite lookup_insert_eq|].
  repeat split; try (by rewrite lookup_insert_ne).
  intros x Hx. by rewrite lookup_insert_ne.
Qed.

Lemma C1_reconcile_union_minus_witness :
  get_manual_installed_packages (World curl_files []) =
    (Ok (({[ "curl" ]} ∪ ∅) ∖ {[ "libssl1.1" ]}), World curl_files [])
  /\ exists r h',
       reconcile 0 1 2 curl_store = (r, h')
       /\ curl_store !! r = None
       /\ h' !! r = Some (({[ "curl" ]} ∪ ∅) ∖ {[ "libssl1.1" ]})
       /\ h' !! 0 = Some {[ "curl" ]} /\ h' !! 1 = Some ∅
       /\ h' !! 2 = Some {[ "libssl1.1" ]}
       /\ forall x, x ≠ r -> h' !! x = curl_store !! x.
Proof.
  apply (C1_reconcile_union_minus (World curl_files []) (World curl_files [])
           (World curl_files []) (World curl_files []));
    vm_compute; reflexivity.
Defined.

Lemma difference_disjoint (X Y : gset string) : X ∖ Y ## Y.
Proof. intros x [_ Hx]%elem_of_difference Hx'. by apply Hx. Qed.

(** C4. The set the pipeline returns shares no name with the set the
    status reader returns on the same files. *)
Theorem C4_result_disjoint_from_auto (w w' : world) (s : gset string) :
  get_manual_installed_packages w = (Ok s, w') ->
  forall pre, exists auto out,
    _get_auto_installed_packages (World (fs w) pre)
      = (Ok auto, World (fs w) out)
    /\ s ## auto.
Proof.
  intros (es & w1 & logs & [files2 pre2] & auto & Hes & Hlogs & Hauto & ->)
    %get_manual_installed_packages_inv pre.
  assert (files2 = fs w) as ->.
  { destruct w as [files pre0].
    destruct (read_only_extended_states files) as (r1 & o1 & H1).
    destruct (read_only_logs files) as (r2 & o2 & H2).
    rewrite H1 in Hes. injection Hes as _ <-.
    rewrite H2 in Hlogs. by injection Hlogs as _ <-. }
  rewrite auto_reader_run in Hauto. rewrite auto_reader_run.
  destruct (status (fs w)) as [[ls [e|]]|]; simpl in *.
  - destruct (is_OSError e); simplify_eq.
    eexists _, _. split; [done|apply difference_disjoint].
  - simplify_eq. eexists _, _. split; [done|apply difference_disjoint].
  - simplify_eq. eexists _, _. split; [done|apply difference_disjoint].
Qed.

Lemma C4_result_disjoint_from_auto_witness :
  exists auto out,
    _get_auto_installed_packages (World curl_files [])
      = (Ok auto, World curl_files out)
    /\ ({[ "curl" ]} : gset string) ## auto.
Proof.
  apply (C4_result_disjoint_from_auto (World curl_files [])
           (World curl_files []) {[ "curl" ]}).
  vm_compute. reflexivity.
Defined.

(** C9. The pipeline changes no file, and its result is fixed by the
    files: a second run after the first, or a run from any other state
    with the same files, returns the same set (or raises the same
    exception). *)
Theorem C9_pipeline_deterministic (w w1 w2 : world)
    (r1 r2 : result (gset string)) :
  get_manual_installed_packages w = (r1, w1) ->
  get_manual_installed_packages w1 = (r2, w2) ->
  fs w1 = fs w /\ r2 = r1
  /\ forall v, fs v = fs w -> (get_manual_installed_packages v).1 = r1.
Proof.
  destruct w as [files pre].
  destruct (read_only_get_manual_installed_packages files) as (r & out & Hrun).
  rewrite Hrun. intros [= <- <-]. rewrite Hrun. intros [= <- <-].
  repeat split. intros [files' pre'] [= ->]. by rewrite Hrun.
Qed.

Lemma C9_pipeline_deterministic_witness :
  fs (World vim_files []) = fs (World vim_files [])
  /\ Ok {[ "vim"; "vim-common" ]} = Ok ({[ "vim"; "vim-common" ]} : gset string)
  /\ forall v, fs v = fs (World vim_files []) ->
       (get_manual_installed_packages v).1 = Ok {[ "vim"; "vim-common" ]}.
Proof.
  apply (C9_pipeline_deterministic (World vim_files []) (World vim_files [])
           (World vim_files [])); vm_compute; reflexivity.
Defined.

(** ** The reporter *)

Lemma for_each_print l w :
  for_each l print w = (Ok tt, World (fs w) (stdout w ++ l)).
Proof.
  revert w. induction l as [|x l IH]; intros [files pre]; simpl.
  - unfold ret. by rewrite app_nil_r.
  - unfold bind, print. simpl. rewrite IH. simpl.
    by rewrite <- app_assoc.
Qed.

Lemma report_run s w :
  report s w = (Ok tt, World (fs w) (stdout w ++ report_lines s)).
Proof.
  unfold report, report_lines. case_bool_decide; [apply for_each_print|done].
Qed.

Lemma main_run w s w' :
  get_manual_installed_packages w = (Ok s, w') ->
  main w = (Ok tt, World (fs w') (stdout w' ++ report_lines s)).
Proof.
  intros H. unfold main. rewrite (bind_ok _ _ _ _ _ H). apply report_run.
Qed.

(** The order of [sorted] compares the first characters by their codes and,
    when they are equal, the rest: it is the order of [str]. *)
Lemma le_lexicographic a s b t :
  String.le (String a s) (String b t) <->
  (nat_of_ascii a < nat_of_ascii b)%nat \/ (a = b /\ String.le s t).
Proof.
  unfold String.le, String.leb. simpl. unfold Ascii.compare.
  destruct (N.compare_spec (N_of_ascii a) (N_of_ascii b)) as [Heq|Hlt|Hgt].
  - apply (f_equal ascii_of_N) in Heq. rewrite !ascii_N_embedding in Heq.
    subst b. split; [by right|].
    intros [?|[_ ?]]; [lia|done].
  - split; [|done]. intros _. left. unfold nat_of_ascii. lia.
  - split; [done|]. intros [?|[-> _]]; unfold nat_of_ascii in *; lia.
Qed.

Lemma le_empty t : String.le "" t.
Proof. by destruct t. Qed.

Lemma sorted_spec (s : gset string) :
  StronglySorted String.le (sorted s) /\ NoDup (sorted s)
  /\ forall p, p ∈ sorted s <-> p ∈ s.
Proof.
  unfold sorted. split; [apply (StronglySorted_merge_sort _)|].
  split.
  - rewrite merge_sort_Permutation. apply NoDup_elements.
  - intros p. rewrite merge_sort_Permutation. apply elem_of_elements.
Qed.

(** C7. When the pipeline returns a set, the command prints after it the
    names of the set in increasing order, each of them once, or the one
    fixed message when the set is empty; it exits with status 0 in both
    cases. *)
Theorem C7_report_sorted_or_none_found
    (files : filesystem) (s : gset string) (w' : world) :
  get_manual_installed_packages (World files []) = (Ok s, w') ->
  run files = Process (stdout w' ++ report_lines s) 0
  /\ (forall w, report s w = (Ok tt, World (fs w) (stdout w ++ report_lines s)))
  /\ (s = ∅ -> report_lines s = [none_found])
  /\ (s ≠ ∅ -> report_lines s = sorted s)
  /\ StronglySorted String.le (sorted s)
  /\ NoDup (sorted s)
  /\ forall p, p ∈ sorted s <-> p ∈ s.
Proof.
  intros Hrun. split.
  { unfold run. by rewrite (main_run _ _ _ Hrun). }
  split; [apply report_run|].
  split; [intros ->; unfold report_lines; by rewrite bool_decide_false by auto|].
  split; [intros ?; unfold report_lines; by rewrite bool_decide_true|].
  apply sorted_spec.
Qed.

Lemma C7_report_sorted_or_none_found_witness :
  run vim_files = Process ([] ++ report_lines {[ "vim"; "vim-common" ]}) 0
  /\ (forall w, report {[ "vim"; "vim-common" ]} w
        = (Ok tt, World (fs w)
                    (stdout w ++ report_lines {[ "vim"; "vim-common" ]})))
  /\ (({[ "vim"; "vim-common" ]} : gset string) = ∅ ->
      report_lines {[ "vim"; "vim-common" ]} = [none_found])
  /\ (({[ "vim"; "vim-common" ]} : gset string) ≠ ∅ ->
      report_lines {[ "vim"; "vim-common" ]} = sorted {[ "vim"; "vim-common" ]})
  /\ StronglySorted String.le (sorted {[ "vim"; "vim-common" ]})
  /\ NoDup (sorted {[ "vim"; "vim-common" ]})
  /\ forall p, p ∈ sorted {[ "vim"; "vim-common" ]}
       <-> p ∈ ({[ "vim"; "vim-common" ]} : gset string).
Proof.
  apply (C7_report_sorted_or_none_found vim_files {[ "vim"; "vim-common" ]}
           (World vim_files [])).
  vm_compute. reflexivity.
Defined.

Example report_vim : output (run vim_files) = ["vim"; "vim-common"].
Proof. vm_compute. reflexivity. Qed.

Example report_curl : run curl_files = Process ["curl"] 0.
Proof. vm_compute. reflexivity. Qed.

Example report_nothing :
  run (Filesystem None [] None) = Process [none_found] 0.
Proof. vm_compute. reflexivity. Qed.

(** ** Diagnostics *)

Lemma scan_files_prints_nothing log_files : forall manual_packages w r w',
  Logs.scan_files manual_packages log_files w = (r, w') -> w' = w.
Proof.
  induction log_files as [|log log_files IH]; intros mp w r w'; simpl.
  - by intros [= _ <-].
  - unfold bind. rewrite scan_file_run.
    destruct (failure log.2) as [e|]; [destruct (is_OSError e)|]; eauto.
    by intros [= _ <-].
Qed.

Lemma logs_reader_prints_nothing w r w' :
  _get_manual_installed_packages_from_logs w = (r, w') -> w' = w.
Proof. apply scan_files_prints_nothing. Qed.

(** C8, as the claim states it, fails: the message for a file that cannot be
    read is printed on standard output, before the report. *)
Lemma C8_diagnostic_on_stdout :
  output (run denied_files) =
    [error_reading extended_states_file (OSError "[Errno 13] Permission denied");
     none_found]
  /\ ~ stdout_is_report denied_files.
Proof.
  split; [vm_compute; reflexivity|].
  intros H. specialize (H ∅ _ eq_refl). vm_compute in H. discriminate H.
Qed.

(** C8, amended.  The messages for read errors of the two record files are
    printed on standard output, ahead of the report; the log scanner prints
    none; whatever was printed, the command exits with status 0 when the
    pipeline returns. *)
Theorem C8_diagnostics_precede_report
    (files : filesystem) (s : gset string) (w' : world) :
  get_manual_installed_packages (World files []) = (Ok s, w') ->
  run files =
    Process (diagnostic extended_states_file (extended_states files)
             ++ diagnostic status_file (status files)
             ++ report_lines s) 0.
Proof.
  intros Hrun. unfold run. rewrite (main_run _ _ _ Hrun). f_equal.
  apply get_manual_installed_packages_inv in Hrun
    as (es & w1 & logs & w2 & auto & Hes & Hlogs & Hauto & _).
  apply logs_reader_prints_nothing in Hlogs as ->.
  rewrite extended_states_reader_run in Hes.
  assert (w1 = World files
            (diagnostic extended_states_file (extended_states files))) as ->.
  { destruct (extended_states files) as [[ls [e|]]|]; simpl in *;
      [destruct (is_OSError e)|..]; by simplify_eq. }
  rewrite auto_reader_run in Hauto. rewrite app_assoc. f_equal.
  destruct (status files) as [[ls [e|]]|]; simpl in *;
    [destruct (is_OSError e)|..]; simplify_eq; simpl; by rewrite ?app_nil_r.
Qed.

Lemma C8_diagnostics_precede_report_witness :
  run denied_files =
    Process (diagnostic extended_states_file (extended_states denied_files)
             ++ diagnostic status_file (status denied_files)
             ++ report_lines ∅) 0.
Proof.
  apply (C8_diagnostics_precede_report denied_files ∅
    (World denied_files
       [error_reading extended_states_file
          (OSError "[Errno 13] Permission denied")])).
  vm_compute. reflexivity.
Defined.

(** ** The extended-states reader *)

(** C2, on the code.  A record with a field between its [Package] line and
    its [Auto-Installed: yes] line is added when that field is read, before
    the flag is seen; and a record that ends with the file is never added,
    whatever its flag.  Both come from adding a record at the first other
    line after its name instead of at its end. *)
Theorem C2_extended_states_reader_misses :
  _get_manual_installed_packages_from_extended_states
      (World (extended_states_only arch_lines) [])
    = (Ok {[ "a" ]}, World (extended_states_only arch_lines) [])
  /\ _get_manual_installed_packages_from_extended_states
      (World (extended_states_only unterminated_lines) [])
    = (Ok ∅, World (extended_states_only unterminated_lines) []).
Proof. split; vm_compute; reflexivity. Qed.

Lemma parse_snoc ls line :
  ExtendedStates.parse (ls ++ [line]) =
  ExtendedStates.manual_packages
    (ExtendedStates.step (foldl ExtendedStates.step ExtendedStates.init ls) line).
Proof. unfold ExtendedStates.parse. by rewrite foldl_app. Qed.

(** C10, as the claim states it, fails: the name of the last line is in the
    result when an earlier record of the same name was added. *)
Lemma C10_final_package_present : ~ final_package_absent repeated_lines.
Proof.
  intros H. apply (H [ln "Package: a"; ln ""] (ln "Package: a")).
  - reflexivity.
  - reflexivity.
  - vm_compute. reflexivity.
Qed.

(** C10, amended.  A [Package: ] line at the end of the file adds nothing:
    the reader returns what it returns for the file without that line. *)
Theorem C10_final_package_line_adds_nothing
    (ls : list string) (line : string) (pre : list string) :
  Py.startswith "Package: " line = true ->
  ExtendedStates.parse (ls ++ [line]) = ExtendedStates.parse ls
  /\ (_get_manual_installed_packages_from_extended_states
        (World (extended_states_only (ls ++ [line])) pre)).1
     = (_get_manual_installed_packages_from_extended_states
        (World (extended_states_only ls) pre)).1
  /\ (package_of line ∈ ExtendedStates.parse (ls ++ [line])
      <-> package_of line ∈ ExtendedStates.parse ls).
Proof.
  intros Hline.
  assert (Heq : ExtendedStates.parse (ls ++ [line]) = ExtendedStates.parse ls).
  { rewrite parse_snoc. unfold ExtendedStates.step. by rewrite Hline. }
  split; [done|]. split; [|by rewrite Heq].
  rewrite !extended_states_reader_run. simpl. by rewrite Heq.
Qed.

Lemma C10_final_package_line_adds_nothing_witness :
  ExtendedStates.parse ([ln "Package: curl"; ln ""] ++ ["Package: vim"])
    = ExtendedStates.parse [ln "Package: curl"; ln ""]
  /\ (_get_manual_installed_packages_from_extended_states
        (World (extended_states_only
                  ([ln "Package: curl"; ln ""] ++ ["Package: vim"])) [])).1
     = (_get_manual_installed_packages_from_extended_states
        (World (extended_states_only [ln "Package: curl"; ln ""]) [])).1
  /\ (package_of "Package: vim"
        ∈ ExtendedStates.parse ([ln "Package: curl"; ln ""] ++ ["Package: vim"])
      <-> package_of "Package: vim"
        ∈ ExtendedStates.parse [ln "Package: curl"; ln ""]).
Proof.
  apply (C10_final_package_line_adds_nothing
           [ln "Package: curl"; ln ""] "Package: vim" []).
  reflexivity.
Defined.

Example final_package_dropped :
  ExtendedStates.parse [ln "Package: curl"; ln ""; "Package: vim"]
  = {[ "curl" ]}.
Proof. vm_compute. reflexivity. Qed.

(** ** The status reader *)

(** C3, as the claim states it, fails: a flag that comes before the name in
    its record is not counted for it. *)
Lemma C3_own_record_not_decisive : ~ auto_iff_own_record status_first_lines.
Proof.
  intros H. destruct (H "a") as [_ Hin].
  specialize (Hin eq_refl). vm_compute in Hin. discriminate Hin.
Qed.

(** And a flagged record without a name is counted for the record before
    it. *)
Example nameless_record_counts_for_previous :
  "a" ∈ Status.parse nameless_record_lines
  /\ own_record_flagged nameless_record_lines "a" = false.
Proof. split; vm_compute; reflexivity. Qed.

Lemma truthy_spec o :
  Py.truthy o = true <-> exists n, o = Some n /\ n ≠ "".
Proof.
  destruct o as [[|c n]|]; simpl; split; try done.
  - intros (? & [= <-] & ?). done.
  - intros _. by eexists.
  - intros (? & [=] & _).
Qed.

Lemma auto_status_not_package line :
  is_auto_status line = true -> Py.startswith "Package: " line = false.
Proof.
  unfold is_auto_status, Py.startswith. intros [H _]%andb_prop.
  destruct line as [|c line]; [done|]. cbn [String.prefix] in *.
  destruct (ascii_dec "S" c) as [<-|]; [|done]. reflexivity.
Qed.

Lemma status_follows_nil : ~ status_follows [].
Proof. intros (b & st & back & H & _). by destruct b. Qed.

Lemma status_follows_cons l ls :
  status_follows (l :: ls) <->
  is_auto_status l = true
  \/ (Py.startswith "Package: " l = false /\ status_follows ls).
Proof.
  split.
  - intros ([|l' b] & st & back & Heq & Hb & Hst); simplify_eq/=.
    + by left.
    + right. apply Forall_cons in Hb as [? ?]. split; [done|].
      by exists b, st, back.
  - intros [Hst|[Hl (b & st & back & -> & Hb & Hst)]].
    + by exists [], l, ls.
    + exists (l :: b), st, back. repeat split; [|done]. by constructor.
Qed.

Lemma package_then_status_nil p : ~ package_then_status p [].
Proof. intros (f & pkg & rest & H & _). by destruct f. Qed.

Lemma package_then_status_cons p l ls :
  package_then_status p (l :: ls) <->
  (is_package_line p l = true /\ status_follows ls)
  \/ package_then_status p ls.
Proof.
  split.
  - intros ([|l' f] & pkg & rest & Heq & Hpkg & Hst); simplify_eq/=.
    + by left.
    + right. by exists f, pkg, rest.
  - intros [[Hpkg Hst]|(f & pkg & rest & -> & Hpkg & Hst)].
    + by exists [], l, ls.
    + by exists (l :: f), pkg, rest.
Qed.

(** The loop from any state: a name is in the set at the end when it was
    there, when it is the current name and a flagged line comes before the
    next [Package: ] line, or when the lines give it a flagged line of its
    own. *)
Lemma status_loop p ls : forall v,
  p ∈ Status.auto_packages (foldl Status.step v ls) <->
  p ∈ Status.auto_packages v
  \/ (p ≠ "" /\ Status.package_name v = Some p /\ status_follows ls)
  \/ (p ≠ "" /\ package_then_status p ls).
Proof.
  induction ls as [|l ls IH]; intros v; cbn [foldl].
  { pose proof status_follows_nil. pose proof (package_then_status_nil p).
    tauto. }
  rewrite IH, status_follows_cons, package_then_status_cons.
  unfold Status.step, is_package_line. fold (package_of l).
  fold (is_auto_status l).
  destruct (Py.startswith "Package: " l) eqn:Hpkg;
    cbn [andb Status.package_name Status.auto_packages].
  - assert (is_auto_status l = false) as ->.
    { destruct (is_auto_status l) eqn:Hst; [|done].
      apply auto_status_not_package in Hst. congruence. }
    rewrite String.eqb_eq.
    intuition (subst; try congruence).
  - destruct (is_auto_status l) eqn:Hst.
    + destruct (Py.truthy (Status.package_name v)) eqn:Ht;
        cbn [Status.package_name Status.auto_packages].
      * apply truthy_spec in Ht as (n & Hn & Hne). rewrite Hn.
        change (default "" (Some n)) with n.
        rewrite elem_of_union, elem_of_singleton.
        destruct (decide (p = n)) as [->|Hpn].
        { split; intros _; [right; left; auto|left; by left]. }
        intuition congruence.
      * assert (~ (p ≠ "" /\ Status.package_name v = Some p)).
        { intros [Hne Hn]. rewrite Hn in Ht. by destruct p. }
        intuition congruence.
    + intuition congruence.
Qed.

(** C3, amended.  A name is in the auto-install set exactly when it is not
    empty and a [Status: ] line with the marker comes after a [Package: ]
    line that names it, with no other [Package: ] line between the two;
    blank lines do not end a record for the reader. *)
Theorem C3_auto_iff_status_after_package (ls : list string) (p : string) :
  p ∈ Status.parse ls <-> p ≠ "" /\ package_then_status p ls.
Proof.
  unfold Status.parse. rewrite status_loop. simpl.
  rewrite elem_of_empty. intuition congruence.
Qed.

(** ** Failures while reading *)

(** C5, as the claim states it, fails: the log scanner keeps the names it
    found before the failure. *)
Lemma C5_log_failure_keeps_names : ~ failures_contained broken_log_files.
Proof.
  intros (_ & Hlogs & _).
  specialize (Hlogs _ (OSError "[Errno 5] Input/output error")
                (list_elem_of_here _ _) eq_refl).
  vm_compute in Hlogs. discriminate Hlogs.
Qed.

Example broken_log_run : run broken_log_files = Process ["vim"] 0.
Proof. vm_compute. reflexivity. Qed.

(** The [except] clauses name [OSError] only: an exception of another class
    leaves the reader and ends the run. *)
Example decode_error_escapes :
  _get_manual_installed_packages_from_extended_states
      (World undecodable_files [])
    = (Raise (UnicodeDecodeError "'utf-8' codec can't decode byte 0xff"),
       World undecodable_files [])
  /\ run undecodable_files = Process [] 1.
Proof. split; vm_compute; reflexivity. Qed.

(** C5, amended.  When every failure is an [OSError], each is caught in the
    reader where it occurs: the readers of the two record files print their
    message and return the empty set, the log scanner leaves the failing
    file and returns the names of all the lines it has read, the pipeline
    returns a set and the command exits with status 0. *)
Theorem C5_os_errors_contained (files : filesystem) :
  os_failures_only files = true ->
  (forall f e pre, extended_states files = Some f -> failure f = Some e ->
     _get_manual_installed_packages_from_extended_states (World files pre)
     = (Ok ∅, World files (pre ++ [error_reading extended_states_file e])))
  /\ (forall pre,
     _get_manual_installed_packages_from_logs (World files pre)
     = (Ok (foldl Logs.scan_line ∅ (log_lines (history_logs files))),
        World files pre))
  /\ (forall f e pre, status files = Some f -> failure f = Some e ->
     _get_auto_installed_packages (World files pre)
     = (Ok ∅, World files (pre ++ [error_reading status_file e])))
  /\ (exists s w', get_manual_installed_packages (World files []) = (Ok s, w'))
  /\ exit_status (run files) = 0%Z.
Proof.
  unfold os_failures_only. intros [[Hes Hlogs]%andb_prop Hst]%andb_prop.
  assert (Hes' : forall f e pre,
    extended_states files = Some f -> failure f = Some e ->
    _get_manual_installed_packages_from_extended_states (World files pre)
    = (Ok ∅, World files (pre ++ [error_reading extended_states_file e]))).
  { intros f e pre Hf He. rewrite extended_states_reader_run, Hf, He.
    rewrite Hf in Hes. unfold os_failure in Hes. simpl in Hes.
    rewrite He in Hes. by rewrite Hes. }
  assert (Hlogs' : forall pre,
    _get_manual_installed_packages_from_logs (World files pre)
    = (Ok (foldl Logs.scan_line ∅ (log_lines (history_logs files))),
       World files pre)).
  { intros pre. unfold _get_manual_installed_packages_from_logs, bind, reads.
    simpl. by apply scan_files_os_failures. }
  assert (Hst' : forall f e pre,
    status files = Some f -> failure f = Some e ->
    _get_auto_installed_packages (World files pre)
    = (Ok ∅, World files (pre ++ [error_reading status_file e]))).
  { intros f e pre Hf He. rewrite auto_reader_run, Hf, He.
    rewrite Hf in Hst. unfold os_failure in Hst. simpl in Hst.
    rewrite He in Hst. by rewrite Hst. }
  assert (Hrun : exists s w',
    get_manual_installed_packages (World files []) = (Ok s, w')).
  { assert (exists es o1, _get_manual_installed_packages_from_extended_states
              (World files []) = (Ok es, World files o1)) as (es & o1 & H1).
    { destruct (extended_states files) as [f|] eqn:Hf.
      - destruct (failure f) as [e|] eqn:He.
        + eexists _, _. by apply (Hes' f e).
        + eexists _, _. by rewrite extended_states_reader_run, Hf, He.
      - eexists _, _. by rewrite extended_states_reader_run, Hf. }
    assert (exists auto o3, _get_auto_installed_packages
              (World files o1) = (Ok auto, World files o3)) as (au & o3 & H3).
    { destruct (status files) as [f|] eqn:Hf.
      - destruct (failure f) as [e|] eqn:He.
        + eexists _, _. by apply (Hst' f e).
        + eexists _, _. by rewrite auto_reader_run, Hf, He.
      - eexists _, _. by rewrite auto_reader_run, Hf. }
    eexists _, _.
    apply (get_manual_installed_packages_run _ _ _ _ _ _ _ H1 (Hlogs' o1) H3). }
  repeat split; try done.
  destruct Hrun as (s & w' & Hrun). unfold run.
  by rewrite (main_run _ _ _ Hrun).
Qed.

Lemma C5_os_errors_contained_witness :
  (forall f e pre, extended_states broken_log_files = Some f ->
     failure f = Some e ->
     _get_manual_installed_packages_from_extended_states
       (World broken_log_files pre)
     = (Ok ∅, World broken_log_files
                (pre ++ [error_reading extended_states_file e])))
  /\ (forall pre,
     _get_manual_installed_packages_from_logs (World broken_log_files pre)
     = (Ok (foldl Logs.scan_line ∅
              (log_lines (history_logs broken_log_files))),
        World broken_log_files pre))
  /\ (forall f e pre, status broken_log_files = Some f -> failure f = Some e ->
     _get_auto_installed_packages (World broken_log_files pre)
     = (Ok ∅, World broken_log_files (pre ++ [error_reading status_file e])))
  /\ (exists s w',
        get_manual_installed_packages (World broken_log_files [])
        = (Ok s, w'))
  /\ exit_status (run broken_log_files) = 0%Z.
Proof. apply (C5_os_errors_contained broken_log_files). reflexivity. Defined.

(** ** The log scanner *)

Lemma span_length p s :
  String.length s
  = (String.length (Re.span p s).1 + String.length (Re.span p s).2)%nat.
Proof.
  induction s as [|c s IH]; simpl; [done|].
  destruct (p c); [|done]. destruct (Re.span p s) as [run rest].
  simpl in *. by rewrite IH.
Qed.

Lemma version_opt_length s :
  (String.length (Re.version_opt s).2 <= String.length s)%nat.
Proof.
  destruct s as [|c s]; simpl; [done|].
  destruct (Ascii.eqb c "="); [|done].
  pose proof (span_length Re.is_version_char s) as Hlen.
  destruct (Re.span Re.is_version_char s) as [[|c' run] rest]; simpl in *; lia.
Qed.

Lemma entry_length s n text rest :
  Re.entry s = Some (n, text, rest) ->
  (String.length rest < String.length s)%nat.
Proof.
  unfold Re.entry, Re.name.
  pose proof (span_length Re.is_name_char s) as Hlen.
  destruct (Re.span Re.is_name_char s) as [[|c run] rest0]; [done|].
  pose proof (version_opt_length rest0) as Hv.
  destruct (Re.version_opt rest0) as [v rest1].
  intros [= _ _ <-]. simpl in *. lia.
Qed.

(** The repetitions never run out of fuel: any fuel that is at least the
    length of the string gives the same match. *)
Lemma more_entries_fuel n : forall m s,
  (String.length s <= n)%nat -> (String.length s <= m)%nat ->
  Re.more_entries n s = Re.more_entries m s.
Proof.
  induction n as [|n IH]; intros m s Hn Hm.
  { destruct s; [by destruct m|simpl in Hn; lia]. }
  destruct m as [|m]; [destruct s; [done|simpl in Hm; lia]|].
  destruct s as [|c s]; [done|]. simpl.
  destruct (Ascii.eqb c ","); [|done].
  pose proof (span_length Py.isspace s) as Hlen.
  destruct (Re.span Py.isspace s) as [ws s'].
  destruct (Re.entry s') as [[[n0 text] rest]|] eqn:He; [|done].
  apply entry_length in He. simpl in *.
  do 3 f_equal. apply IH; lia.
Qed.

Lemma span_app p run rest :
  Re.all_chars p run = true ->
  match rest with
  | EmptyString => True
  | String c _ => p c = false
  end ->
  Re.span p (run +:+ rest) = (run, rest).
Proof.
  intros Hrun Hrest. induction run as [|c run IH]; simpl in *.
  - destruct rest as [|c rest]; [done|]. simpl. by rewrite Hrest.
  - apply andb_prop in Hrun as [-> Hrun]. by rewrite IH.
Qed.

Lemma append_empty_r s : s +:+ "" = s.
Proof.
  induction s as [|c s IH]; [done|].
  change (String c (s +:+ "") = String c s). by rewrite IH.
Qed.

Lemma name_match n rest :
  n ≠ "" -> Re.all_chars Re.is_name_char n = true ->
  match rest with
  | EmptyString => True
  | String c _ => Re.is_name_char c = false
  end ->
  Re.package_name_pattern_match (n +:+ rest) = Some n.
Proof.
  intros Hne Hn Hrest. unfold Re.package_name_pattern_match, Re.entry, Re.name.
  rewrite span_app by done. destruct n as [|c n]; [done|].
  by destruct (Re.version_opt rest).
Qed.

(** C6. A token made of a name and a [=version] suffix adds what the name
    alone adds, whatever the version is: the name, unless the name is a lone
    dot, which is dropped; a lone comma is dropped as well. *)
Theorem C6_version_suffix_stripped
    (name version : string) (manual_packages : gset string) :
  name ≠ "" -> Re.all_chars Re.is_name_char name = true ->
  Logs.add_entry manual_packages (name +:+ "=" +:+ version)
    = Logs.add_entry manual_packages name
  /\ Logs.add_entry manual_packages name
     = (if String.eqb name "." then manual_packages
        else {[ name ]} ∪ manual_packages)
  /\ Logs.add_entry manual_packages "." = manual_packages
  /\ Logs.add_entry manual_packages "," = manual_packages
  /\ Logs.add_entry ∅ "foo=1.2.3-1" = {[ "foo" ]}
  /\ Logs.add_entry ∅ "bar" = {[ "bar" ]}.
Proof.
  intros Hne Hname.
  assert (Hv : Re.package_name_pattern_match (name +:+ "=" +:+ version)
               = Some name) by by apply name_match.
  assert (Hn : Re.package_name_pattern_match name = Some name).
  { rewrite <- (name_match name "") by done. by rewrite append_empty_r. }
  unfold Logs.add_entry. rewrite Hv, Hn.
  split; [done|]. split; [by destruct (String.eqb name ".")|].
  split; [done|]. split; [done|]. split; vm_compute; reflexivity.
Qed.

Lemma C6_version_suffix_stripped_witness :
  Logs.add_entry ∅ ("vim-common" +:+ "=" +:+ "2:8.2")
    = Logs.add_entry ∅ "vim-common"
  /\ Logs.add_entry ∅ "vim-common"
     = (if String.eqb "vim-common" "." then ∅ else {[ "vim-common" ]} ∪ ∅)
  /\ Logs.add_entry (∅ : gset string) "." = ∅
  /\ Logs.add_entry (∅ : gset string) "," = ∅
  /\ Logs.add_entry ∅ "foo=1.2.3-1" = {[ "foo" ]}
  /\ Logs.add_entry ∅ "bar" = {[ "bar" ]}.
Proof.
  apply (C6_version_suffix_stripped "vim-common" "2:8.2" ∅);
    [discriminate | reflexivity].
Defined.

Example scan_install_line :
  Logs.scan_line ∅ (ln "Commandline: apt install vim, vim-common=2:8.2 --yes")
  = {[ "vim"; "vim-common" ]}.
Proof. vm_compute. reflexivity. Qed.

Example scan_lone_dot :
  Logs.scan_line ∅ (ln "Commandline: apt install a, ., b=1.0 -y")
  = {[ "a"; "b" ]}.
Proof. vm_compute. reflexivity. Qed.

(** * Further properties of the readers *)

(** ** Names are trimmed *)

Lemma lstrip_head s :
  match Py.lstrip s with
  | EmptyString => True
  | String c _ => Py.isspace c = false
  end.
Proof.
  induction s as [|c s IH]; cbn [Py.lstrip]; [done|].
  destruct (Py.isspace c) eqn:Hc; [done|]. exact Hc.
Qed.

Lemma rstrip_cons c s :
  Py.rstrip (String c s) =
  match Py.rstrip s with
  | EmptyString => if Py.isspace c then EmptyString else String c EmptyString
  | r => String c r
  end.
Proof. reflexivity. Qed.

Lemma rstrip_idem s : Py.rstrip (Py.rstrip s) = Py.rstrip s.
Proof.
  induction s as [|c s IH]; [done|]. rewrite rstrip_cons.
  destruct (Py.rstrip s) as [|c' r] eqn:Hr.
  - destruct (Py.isspace c) eqn:Hc; [done|].
    rewrite rstrip_cons. cbn [Py.rstrip]. by rewrite Hc.
  - rewrite rstrip_cons, IH. reflexivity.
Qed.

Lemma rstrip_head c s :
  Py.isspace c = false -> exists r, Py.rstrip (String c s) = String c r.
Proof.
  intros Hc. rewrite rstrip_cons, Hc. destruct (Py.rstrip s); by eexists.
Qed.

Lemma strip_idem s : Py.strip (Py.strip s) = Py.strip s.
Proof.
  unfold Py.strip. pose proof (lstrip_head s) as Hhead.
  destruct (Py.lstrip s) as [|c t]; [done|].
  destruct (rstrip_head c t Hhead) as [r Hr]. rewrite Hr.
  cbn [Py.lstrip]. rewrite Hhead, <- Hr. apply rstrip_idem.
Qed.

Lemma package_of_trimmed line : Py.strip (package_of line) = package_of line.
Proof. apply strip_idem. Qed.

(** A trimmed name: not empty, and [strip] leaves it as it is.  *)
Lemma extended_states_loop_trimmed ls : forall v,
  (forall n, ExtendedStates.package_name v = Some n -> trimmed_or_empty n) ->
  (forall p, p ∈ ExtendedStates.manual_packages v -> trimmed p) ->
  forall p, p ∈ ExtendedStates.manual_packages (foldl ExtendedStates.step v ls)
    -> trimmed p.
Proof.
  induction ls as [|l ls IH]; intros v Hname Hset; [done|].
  cbn [foldl]. apply IH; unfold ExtendedStates.step;
    destruct (Py.startswith "Package: " l);
    [|destruct (Py.startswith "Auto-Installed: " l)| |
      destruct (Py.startswith "Auto-Installed: " l)];
    cbn [ExtendedStates.package_name ExtendedStates.manual_packages];
    try done.
  - intros n [= <-]. apply package_of_trimmed.
  - destruct (Py.truthy _ && _); done.
  - destruct (Py.truthy (ExtendedStates.package_name v)) eqn:Ht;
      cbn [andb]; [|done].
    destruct (negb (ExtendedStates.auto_installed v)); [|done].
    cbn [ExtendedStates.manual_packages].
    apply truthy_spec in Ht as (n & Hn & Hne). rewrite Hn.
    change (default "" (Some n)) with n.
    intros p [->%elem_of_singleton|Hp]%elem_of_union; [|by apply Hset].
    split; [done|by apply Hname].
Qed.

Lemma status_loop_trimmed ls : forall v,
  (forall n, Status.package_name v = Some n -> trimmed_or_empty n) ->
  (forall p, p ∈ Status.auto_packages v -> trimmed p) ->
  forall p, p ∈ Status.auto_packages (foldl Status.step v ls) -> trimmed p.
Proof.
  induction ls as [|l ls IH]; intros v Hname Hset; [done|].
  cbn [foldl]. unfold Status.step at 2.
  destruct (Py.startswith "Package: " l).
  { apply IH; cbn [Status.package_name Status.auto_packages]; [|done].
    intros n [= <-]. apply package_of_trimmed. }
  destruct (Py.startswith "Status: " l && Py.contains "auto" l);
    [|by apply IH].
  destruct (Py.truthy (Status.package_name v)) eqn:Ht; [|by apply IH].
  apply IH; cbn [Status.package_name Status.auto_packages]; [done|].
  apply truthy_spec in Ht as (n & Hn & Hne). rewrite Hn.
  change (default "" (Some n)) with n.
  intros p [->%elem_of_singleton|Hp]%elem_of_union; [|by apply Hset].
  split; [done|by apply Hname].
Qed.

(** X1. Every name the extended-states reader returns is not empty and has
    no white space at either end. *)
Theorem extended_states_names_trimmed (w w' : world) (s : gset string) :
  _get_manual_installed_packages_from_extended_states w = (Ok s, w') ->
  forall p, p ∈ s -> p ≠ "" /\ Py.strip p = p.
Proof.
  destruct w as [files pre]. rewrite extended_states_reader_run.
  intros Hrun p Hp.
  assert (Hparse : forall ls q, q ∈ ExtendedStates.parse ls -> trimmed q).
  { intros ls. apply extended_states_loop_trimmed; [done|].
    intros q []%elem_of_empty. }
  destruct (extended_states files) as [[ls [e|]]|]; simpl in Hrun;
    [destruct (is_OSError e)|..]; simplify_eq;
    try (by apply elem_of_empty in Hp).
  by apply (Hparse ls).
Qed.

Lemma extended_states_names_trimmed_witness :
  "curl" ≠ "" /\ Py.strip "curl" = "curl".
Proof.
  apply (extended_states_names_trimmed (World curl_files [])
           (World curl_files []) {[ "curl" ]});
    vm_compute; reflexivity.
Defined.

(** X2. Every name the status reader returns is not empty and has no white
    space at either end. *)
Theorem auto_names_trimmed (w w' : world) (s : gset string) :
  _get_auto_installed_packages w = (Ok s, w') ->
  forall p, p ∈ s -> p ≠ "" /\ Py.strip p = p.
Proof.
  destruct w as [files pre]. rewrite auto_reader_run.
  intros Hrun p Hp.
  assert (Hparse : forall ls q, q ∈ Status.parse ls -> trimmed q).
  { intros ls. apply status_loop_trimmed; [done|].
    intros q []%elem_of_empty. }
  destruct (status files) as [[ls [e|]]|]; simpl in Hrun;
    [destruct (is_OSError e)|..]; simplify_eq;
    try (by apply elem_of_empty in Hp).
  by apply (Hparse ls).
Qed.

Lemma auto_names_trimmed_witness :
  "libssl1.1" ≠ "" /\ Py.strip "libssl1.1" = "libssl1.1".
Proof.
  apply (auto_names_trimmed (World curl_files [])
           (World curl_files []) {[ "libssl1.1" ]});
    vm_compute; reflexivity.
Defined.

(** ** The names of the log scanner *)

Lemma span_all_chars p s : Re.all_chars p (Re.span p s).1 = true.
Proof.
  induction s as [|c s IH]; cbn [Re.span]; [done|].
  destruct (p c) eqn:Hc; [|done].
  destruct (Re.span p s) as [run rest]. cbn in *. by rewrite Hc, IH.
Qed.

Lemma package_name_pattern_match_name s n :
  Re.package_name_pattern_match s = Some n ->
  n ≠ "" /\ Re.all_chars Re.is_name_char n = true.
Proof.
  unfold Re.package_name_pattern_match, Re.entry, Re.name.
  pose proof (span_all_chars Re.is_name_char s) as Hall.
  destruct (Re.span Re.is_name_char s) as [[|c run] rest]; [done|].
  destruct (Re.version_opt rest). by intros [= <-].
Qed.

Lemma add_entry_union manual_packages package_entry :
  Logs.add_entry manual_packages package_entry
  = manual_packages ∪ Logs.add_entry ∅ package_entry.
Proof.
  unfold Logs.add_entry.
  destruct (Re.package_name_pattern_match package_entry) as [n|];
    [destruct (negb (String.eqb n "."))|];
    rewrite ?(right_id_L ∅ (∪)); [apply (comm_L (∪))|done..].
Qed.

Lemma add_entry_names package_entry p :
  p ∈ Logs.add_entry ∅ package_entry -> log_name p.
Proof.
  unfold Logs.add_entry.
  destruct (Re.package_name_pattern_match package_entry) as [n|] eqn:Hn;
    [|by intros []%elem_of_empty].
  destruct (String.eqb_spec n "."); cbn [negb];
    [by intros []%elem_of_empty|].
  rewrite (right_id_L ∅ (∪)). intros ->%elem_of_singleton.
  apply package_name_pattern_match_name in Hn as [? ?]. by repeat split.
Qed.

Lemma add_entries_union package_list : forall manual_packages,
  foldl Logs.add_entry manual_packages package_list
  = manual_packages ∪ foldl Logs.add_entry ∅ package_list.
Proof.
  induction package_list as [|e l IH]; intros mp; cbn [foldl].
  - by rewrite (right_id_L ∅ (∪)).
  - rewrite IH, (IH (Logs.add_entry ∅ e)), (add_entry_union mp).
    by rewrite (assoc_L (∪)).
Qed.

Lemma add_entries_names package_list p :
  p ∈ foldl Logs.add_entry ∅ package_list -> log_name p.
Proof.
  induction package_list as [|e l IH]; cbn [foldl].
  - by intros []%elem_of_empty.
  - rewrite add_entries_union.
    intros [?%add_entry_names|?]%elem_of_union; auto.
Qed.

Lemma scan_line_union manual_packages line :
  Logs.scan_line manual_packages line
  = manual_packages ∪ Logs.scan_line ∅ line.
Proof.
  unfold Logs.scan_line.
  destruct (Py.contains " install " line);
    [destruct (Re.install_pattern_search line)|];
    rewrite ?(right_id_L ∅ (∪)); try done.
  apply add_entries_union.
Qed.

Lemma scan_line_names line p : p ∈ Logs.scan_line ∅ line -> log_name p.
Proof.
  unfold Logs.scan_line.
  destruct (Py.contains " install " line);
    [destruct (Re.install_pattern_search line)|];
    try (by intros []%elem_of_empty).
  apply add_entries_names.
Qed.

Lemma scan_lines_union ls : forall manual_packages,
  foldl Logs.scan_line manual_packages ls
  = manual_packages ∪ foldl Logs.scan_line ∅ ls.
Proof.
  induction ls as [|l ls IH]; intros mp; cbn [foldl].
  - by rewrite (right_id_L ∅ (∪)).
  - rewrite IH, (IH (Logs.scan_line ∅ l)), (scan_line_union mp).
    by rewrite (assoc_L (∪)).
Qed.

Lemma scan_lines_elem ls p :
  p ∈ foldl Logs.scan_line ∅ ls <-> exists l, l ∈ ls /\ p ∈ Logs.scan_line ∅ l.
Proof.
  induction ls as [|l ls IH]; cbn [foldl].
  - split; [by intros []%elem_of_empty|]. by intros (l & []%elem_of_nil & _).
  - rewrite scan_lines_union, elem_of_union, IH. split.
    + intros [Hp|(l' & Hl' & Hp)];
        [exists l; split; [left|done] | exists l'; split; [by right|done]].
    + intros (l' & [->|Hl']%elem_of_cons & Hp); [by left|right; by exists l'].
Qed.

(** When the scan returns, every line of every log file was read. *)
Lemma scan_files_ok log_files : forall manual_packages w s w',
  Logs.scan_files manual_packages log_files w = (Ok s, w') ->
  s = foldl Logs.scan_line manual_packages (log_lines log_files)
  /\ forallb (fun log => os_failure log.2) log_files = true.
Proof.
  induction log_files as [|log log_files IH]; intros mp w s w'.
  { by intros [= <- _]. }
  cbn [Logs.scan_files forallb]. unfold bind. rewrite scan_file_run.
  unfold log_lines. cbn [map concat]. rewrite foldl_app.
  unfold os_failure at 1.
  destruct (failure log.2) as [e|]; [destruct (is_OSError e); [|done]|];
    intros [-> ->]%IH; done.
Qed.

(** X3. Every name the log scanner returns is not empty, is made of the
    characters [a-z0-9._+-] only, and is not a lone dot; and each comes from
    a line of a log file. *)
Theorem log_names_valid (w w' : world) (s : gset string) :
  _get_manual_installed_packages_from_logs w = (Ok s, w') ->
  forall p, p ∈ s ->
    p ≠ "" /\ Re.all_chars Re.is_name_char p = true /\ p ≠ "."
    /\ exists l, l ∈ log_lines (history_logs (fs w))
                 /\ p ∈ Logs.scan_line ∅ l.
Proof.
  unfold _get_manual_installed_packages_from_logs, bind, reads.
  intros [-> _]%scan_files_ok p (l & Hl & Hp)%scan_lines_elem.
  destruct (scan_line_names l p Hp) as (? & ? & ?). eauto 10.
Qed.

Lemma log_names_valid_witness :
  "vim-common" ≠ "" /\ Re.all_chars Re.is_name_char "vim-common" = true
  /\ "vim-common" ≠ "."
  /\ exists l, l ∈ log_lines (history_logs (fs (World vim_files [])))
               /\ "vim-common" ∈ Logs.scan_line ∅ l.
Proof.
  apply (log_names_valid (World vim_files []) (World vim_files [])
           {[ "vim"; "vim-common" ]}); vm_compute; reflexivity.
Defined.

(** ** The order of the log files *)

Lemma scan_lines_permutation ls ls' :
  ls ≡ₚ ls' -> forall manual_packages,
  foldl Logs.scan_line manual_packages ls
  = foldl Logs.scan_line manual_packages ls'.
Proof.
  induction 1 as [|l ls ls' _ IH|l1 l2 ls|ls1 ls2 ls3 _ IH1 _ IH2];
    intros mp; cbn [foldl].
  - done.
  - apply IH.
  - f_equal. rewrite (scan_line_union (Logs.scan_line mp l2)),
      (scan_line_union (Logs.scan_line mp l1)),
      (scan_line_union mp l1), (scan_line_union mp l2).
    rewrite <- !(assoc_L (∪)). f_equal. apply (comm_L (∪)).
  - by rewrite IH1.
Qed.

Lemma log_lines_permutation logs logs' :
  logs ≡ₚ logs' -> log_lines logs ≡ₚ log_lines logs'.
Proof.
  unfold log_lines.
  induction 1 as [|l ls ls' _ IH|l1 l2 ls|ls1 ls2 ls3 _ IH1 _ IH2];
    cbn [map concat].
  - done.
  - by rewrite IH.
  - rewrite !(assoc_L (++)). f_equiv. apply Permutation_app_comm.
  - by rewrite IH1.
Qed.

Lemma os_failures_permutation (logs logs' : list (string * stream)) :
  logs ≡ₚ logs' ->
  forallb (fun log => os_failure log.2) logs
  = forallb (fun log => os_failure log.2) logs'.
Proof.
  induction 1 as [|l ls ls' _ IH|l1 l2 ls|ls1 ls2 ls3 _ IH1 _ IH2];
    cbn [forallb].
  - done.
  - by rewrite IH.
  - by rewrite !andb_assoc, (andb_comm (os_failure l2.2)).
  - by rewrite IH1.
Qed.

(** X4. The order in which [glob] lists the log files does not change the
    set the scanner returns: two listings of the same files give the same
    set, when the scan returns for one of them. *)
Theorem log_order_irrelevant
    (files files' : filesystem) (pre pre' : list string)
    (s : gset string) (w : world) :
  history_logs files ≡ₚ history_logs files' ->
  _get_manual_installed_packages_from_logs (World files pre) = (Ok s, w) ->
  _get_manual_installed_packages_from_logs (World files' pre')
  = (Ok s, World files' pre').
Proof.
  unfold _get_manual_installed_packages_from_logs, bind, reads. cbn [fs].
  intros Hperm [-> Hos]%scan_files_ok.
  rewrite scan_files_os_failures
    by by rewrite <- (os_failures_permutation _ _ Hperm).
  do 2 f_equal. symmetry.
  by apply scan_lines_permutation, log_lines_permutation.
Qed.

Lemma log_order_irrelevant_witness :
  _get_manual_installed_packages_from_logs
    (World (logs_only [rotated_log; current_log]) [])
  = (Ok {[ "vim"; "curl"; "git" ]},
     World (logs_only [rotated_log; current_log]) []).
Proof.
  apply (log_order_irrelevant (logs_only [current_log; rotated_log])
           (logs_only [rotated_log; current_log]) [] []
           {[ "vim"; "curl"; "git" ]}
           (World (logs_only [current_log; rotated_log]) [])).
  - apply perm_swap.
  - vm_compute. reflexivity.
Defined.

(** ** The pipeline as a whole *)

Lemma record_reader_os_failure (f : option stream) :
  from_option os_failure true f = true ->
  match f with
  | Some f' =>
      match failure f' with
      | Some e => is_OSError e = true
      | None => True
      end
  | None => True
  end.
Proof.
  destruct f as [[ls [e|]]|]; try done.
Qed.

Lemma extended_states_reader_os files pre :
  from_option os_failure true (extended_states files) = true ->
  _get_manual_installed_packages_from_extended_states (World files pre)
  = (Ok (read_set ExtendedStates.parse (extended_states files)),
     World files
       (pre ++ diagnostic extended_states_file (extended_states files))).
Proof.
  intros Hos%record_reader_os_failure. rewrite extended_states_reader_run.
  destruct (extended_states files) as [[ls [e|]]|]; simpl in *;
    rewrite ?Hos, ?app_nil_r; done.
Qed.

Lemma auto_reader_os files pre :
  from_option os_failure true (status files) = true ->
  _get_auto_installed_packages (World files pre)
  = (Ok (read_set Status.parse (status files)),
     World files (pre ++ diagnostic status_file (status files))).
Proof.
  intros Hos%record_reader_os_failure. rewrite auto_reader_run.
  destruct (status files) as [[ls [e|]]|]; simpl in *;
    rewrite ?Hos, ?app_nil_r; done.
Qed.

Lemma logs_reader_os files pre :
  forallb (fun log => os_failure log.2) (history_logs files) = true ->
  _get_manual_installed_packages_from_logs (World files pre)
  = (Ok (foldl Logs.scan_line ∅ (log_lines (history_logs files))),
     World files pre).
Proof.
  intros Hos. unfold _get_manual_installed_packages_from_logs, bind, reads.
  by apply scan_files_os_failures.
Qed.

Lemma pipeline_run files pre :
  os_failures_only files = true ->
  get_manual_installed_packages (World files pre)
  = (Ok ((read_set ExtendedStates.parse (extended_states files)
          ∪ foldl Logs.scan_line ∅ (log_lines (history_logs files)))
         ∖ read_set Status.parse (status files)),
     World files
       (pre ++ diagnostic extended_states_file (extended_states files)
            ++ diagnostic status_file (status files))).
Proof.
  unfold os_failures_only. intros [[Hes Hlogs]%andb_prop Hst]%andb_prop.
  rewrite (get_manual_installed_packages_run _ _ _ _ _ _ _
             (extended_states_reader_os files pre Hes)
             (logs_reader_os files _ Hlogs)
             (auto_reader_os files _ Hst)).
  by rewrite <- app_assoc.
Qed.

Lemma pipeline_ok_os files pre s w' :
  get_manual_installed_packages (World files pre) = (Ok s, w') ->
  os_failures_only files = true.
Proof.
  intros (es & w1 & logs & w2 & auto & Hes & Hlogs & Hauto & _)
    %get_manual_installed_packages_inv.
  assert (fs w1 = files /\ fs w2 = files) as [Hw1 Hw2].
  { destruct (read_only_extended_states files) as (r1 & o1 & H1).
    rewrite H1 in Hes. injection Hes as _ <-.
    apply logs_reader_prints_nothing in Hlogs as ->. done. }
  destruct w1 as [files1 pre1], w2 as [files2 pre2]. simpl in *. subst.
  unfold os_failures_only. repeat (apply andb_true_intro; split).
  - rewrite extended_states_reader_run in Hes.
    destruct (extended_states files) as [[ls [e|]]|]; simpl in *; try done.
    unfold os_failure. simpl. by destruct (is_OSError e).
  - unfold _get_manual_installed_packages_from_logs, bind, reads in Hlogs.
    by apply scan_files_ok in Hlogs as [_ ?].
  - rewrite auto_reader_run in Hauto.
    destruct (status files) as [[ls [e|]]|]; simpl in *; try done.
    unfold os_failure. simpl. by destruct (is_OSError e).
Qed.

(** X5. When every failure is an [OSError], the pipeline returns the names
    parsed from the extended-states file read to its end and the names of
    all log lines read, without the names parsed from the status file read
    to its end; a record file that is missing or fails gives nothing, and
    what is printed is the messages of the failing record files. *)
Theorem pipeline_result (files : filesystem) (pre : list string) :
  os_failures_only files = true ->
  get_manual_installed_packages (World files pre)
  = (Ok ((read_set ExtendedStates.parse (extended_states files)
          ∪ foldl Logs.scan_line ∅ (log_lines (history_logs files)))
         ∖ read_set Status.parse (status files)),
     World files
       (pre ++ diagnostic extended_states_file (extended_states files)
            ++ diagnostic status_file (status files))).
Proof. apply pipeline_run. Qed.

Lemma pipeline_result_witness :
  get_manual_installed_packages (World unreadable_status_files [])
  = (Ok ((read_set ExtendedStates.parse
            (extended_states unreadable_status_files)
          ∪ foldl Logs.scan_line ∅
              (log_lines (history_logs unreadable_status_files)))
         ∖ read_set Status.parse (status unreadable_status_files)),
     World unreadable_status_files
       ([] ++ diagnostic extended_states_file
                (extended_states unreadable_status_files)
           ++ diagnostic status_file (status unreadable_status_files))).
Proof. apply (pipeline_result unreadable_status_files []). reflexivity. Defined.

(** X6. The command exits with status 0 exactly when every failure of every
    input file is an [OSError]; otherwise it exits with status 1, and
    nothing of the report is printed. *)
Theorem exit_status_zero_iff (files : filesystem) :
  (exit_status (run files) = 0%Z <-> os_failures_only files = true)
  /\ (exit_status (run files) = 0%Z \/ exit_status (run files) = 1%Z)
  /\ (os_failures_only files = false ->
      exit_status (run files) = 1%Z
      /\ forall p, p ∈ output (run files) ->
           p ∈ diagnostic extended_states_file (extended_states files)).
Proof.
  unfold run, main, bind.
  destruct (get_manual_installed_packages (World files [])) as [[s|e] w]
    eqn:Hrun.
  - pose proof (pipeline_ok_os _ _ _ _ Hrun) as Hos.
    rewrite report_run. cbn [exit_status]. rewrite Hos.
    repeat split; auto; done.
  - cbn [exit_status output].
    assert (Hos : os_failures_only files = false).
    { destruct (os_failures_only files) eqn:Hos; [|done].
      by rewrite (pipeline_run _ _ Hos) in Hrun. }
    rewrite Hos. repeat split; auto; try done.
    intros p Hp. clear Hos. revert Hrun.
    unfold get_manual_installed_packages, bind. cbv zeta.
    rewrite extended_states_reader_run.
    destruct (extended_states files) as [[ls [e'|]]|]; simpl in *;
      [destruct (is_OSError e') eqn:He'|..];
      repeat match goal with
      | |- context [_get_manual_installed_packages_from_logs ?w0] =>
          let H := fresh "Hlogs" in
          destruct (_get_manual_installed_packages_from_logs w0)
            as [[?|?] ?] eqn:H;
          apply logs_reader_prints_nothing in H as ->
      | |- context [_get_auto_installed_packages (World ?f ?o)] =>
          rewrite (auto_reader_run f o);
          destruct (status f) as [[? [e3|]]|]; simpl;
          [destruct (is_OSError e3)|..]
      end; intros [= <- <-]; simpl in Hp; try done;
      by apply elem_of_nil in Hp.
Qed.

(** X7. When the status file is missing or cannot be read, nothing is
    removed: every name of the other two readers is returned, also those
    the lines of the status file flag. *)
Theorem status_unavailable_removes_nothing
    (files : filesystem) (pre : list string) :
  os_failures_only files = true ->
  status_unavailable files = true ->
  (get_manual_installed_packages (World files pre)).1
  = Ok (read_set ExtendedStates.parse (extended_states files)
        ∪ foldl Logs.scan_line ∅ (log_lines (history_logs files))).
Proof.
  intros Hos Hst. rewrite (pipeline_run _ _ Hos). cbn [fst]. f_equal.
  assert (read_set Status.parse (status files) = ∅) as ->.
  { unfold status_unavailable in Hst.
    by destruct (status files) as [[ls [e|]]|]. }
  apply difference_empty_L.
Qed.

Lemma status_unavailable_removes_nothing_witness :
  (get_manual_installed_packages (World unreadable_status_files [])).1
  = Ok (read_set ExtendedStates.parse
          (extended_states unreadable_status_files)
        ∪ foldl Logs.scan_line ∅
            (log_lines (history_logs unreadable_status_files))).
Proof.
  apply (status_unavailable_removes_nothing unreadable_status_files []);
    reflexivity.
Defined.

Example unreadable_status_run :
  run unreadable_status_files
  = Process [error_reading status_file (OSError "[Errno 5] Input/output error");
             "curl"; "vim"] 0.
Proof. vm_compute. reflexivity. Qed.

Lemma exit_status_zero_iff_witness :
  exit_status (run undecodable_files) = 1%Z
  /\ forall p, p ∈ output (run undecodable_files) ->
       p ∈ diagnostic extended_states_file (extended_states undecodable_files).
Proof.
  apply (proj2 (proj2 (exit_status_zero_iff undecodable_files))).
  reflexivity.
Defined.

(** ** The names of the result *)

Lemma name_char_not_space c : Re.is_name_char c = true -> Py.isspace c = false.
Proof.
  destruct c as [[] [] [] [] [] [] [] []]; vm_compute; congruence.
Qed.

Lemma version_char_not_space c :
  Re.is_version_char c = true -> Py.isspace c = false.
Proof.
  destruct c as [[] [] [] [] [] [] [] []]; vm_compute; congruence.
Qed.

Lemma rstrip_no_space s :
  Re.all_chars (fun c => negb (Py.isspace c)) s = true -> Py.rstrip s = s.
Proof.
  induction s as [|c s IH]; [done|]. cbn [Re.all_chars].
  intros [Hc Hs]%andb_prop. rewrite rstrip_cons, (IH Hs).
  destruct s; [|done]. by destruct (Py.isspace c).
Qed.

Lemma strip_no_space s :
  Re.all_chars (fun c => negb (Py.isspace c)) s = true -> Py.strip s = s.
Proof.
  intros Hs. unfold Py.strip.
  assert (Py.lstrip s = s) as ->; [|by apply rstrip_no_space].
  destruct s as [|c s]; [done|]. cbn [Re.all_chars Py.lstrip] in *.
  apply andb_prop in Hs as [Hc _]. by destruct (Py.isspace c).
Qed.

Lemma all_chars_impl (p q : ascii -> bool) s :
  (forall c, p c = true -> q c = true) ->
  Re.all_chars p s = true -> Re.all_chars q s = true.
Proof.
  intros Hpq. induction s as [|c s IH]; [done|]. cbn [Re.all_chars].
  intros [Hc Hs]%andb_prop. by rewrite (Hpq c Hc), IH.
Qed.

Lemma log_name_trimmed p : log_name p -> trimmed p.
Proof.
  intros (Hne & Hall & _). split; [done|]. apply strip_no_space.
  apply (all_chars_impl Re.is_name_char); [|done].
  intros c Hc. by rewrite (name_char_not_space c Hc).
Qed.

(** X8. Every name the pipeline returns, and so every line of the package
    list, is not empty and has no white space at either end. *)
Theorem result_names_trimmed (w w' : world) (s : gset string) :
  get_manual_installed_packages w = (Ok s, w') ->
  forall p, p ∈ s \/ (s ≠ ∅ /\ p ∈ report_lines s) ->
    p ≠ "" /\ Py.strip p = p.
Proof.
  destruct w as [files pre]. intros Hrun.
  pose proof (pipeline_ok_os _ _ _ _ Hrun) as Hos.
  rewrite (pipeline_run _ _ Hos) in Hrun. injection Hrun as <- _.
  assert (Hin : forall p,
    p ∈ (read_set ExtendedStates.parse (extended_states files)
         ∪ foldl Logs.scan_line ∅ (log_lines (history_logs files)))
        ∖ read_set Status.parse (status files) -> trimmed p).
  { intros p [[Hp|Hp]%elem_of_union _]%elem_of_difference.
    - destruct (extended_states files) as [[ls [e|]]|];
        try (by apply elem_of_empty in Hp).
      revert Hp. apply extended_states_loop_trimmed; [done|].
      intros q []%elem_of_empty.
    - apply scan_lines_elem in Hp as (l & _ & Hp).
      by apply log_name_trimmed, (scan_line_names l). }
  intros p [Hp|[Hne Hp]]; [by apply Hin|].
  apply Hin. unfold report_lines in Hp. rewrite bool_decide_true in Hp by done.
  by apply sorted_spec in Hp.
Qed.

Lemma result_names_trimmed_witness :
  "vim" ≠ "" /\ Py.strip "vim" = "vim".
Proof.
  apply (result_names_trimmed (World vim_files []) (World vim_files [])
           {[ "vim"; "vim-common" ]}); [|left]; vm_compute; reflexivity.
Defined.

(** ** What the extended-states reader adds *)

Lemma flag_line_not_package line :
  is_flag_line line = true -> Py.startswith "Package: " line = false.
Proof.
  unfold is_flag_line, Py.startswith.
  destruct line as [|c line]; [done|]. cbn [String.prefix].
  destruct (ascii_dec "A" c) as [<-|]; [|done]. reflexivity.
Qed.

Lemma added_after_nil flag : ~ added_after flag [].
Proof. intros (b & o & back & H & _). by destruct b. Qed.

Lemma added_after_cons flag l ls :
  added_after flag (l :: ls) <->
  (is_other_line l = true /\ flag = false)
  \/ (Py.startswith "Package: " l = false
      /\ added_after (flag_step flag l) ls).
Proof.
  split.
  - intros ([|l' b] & o & back & Heq & Hb & Ho & Hf); simplify_eq/=.
    + by left.
    + right. apply Forall_cons in Hb as [? ?]. split; [done|].
      by exists b, o, back.
  - intros [[Ho Hf]|[Hl (b & o & back & -> & Hb & Ho & Hf)]].
    + by exists [], l, ls.
    + exists (l :: b), o, back. repeat split; [|done..]. by constructor.
Qed.

Lemma package_then_added_nil p : ~ package_then_added p [].
Proof. intros (f & pkg & rest & H & _). by destruct f. Qed.

Lemma package_then_added_cons p l ls :
  package_then_added p (l :: ls) <->
  (is_package_line p l = true /\ added_after false ls)
  \/ package_then_added p ls.
Proof.
  split.
  - intros ([|l' f] & pkg & rest & Heq & Hpkg & Hst); simplify_eq/=.
    + by left.
    + right. by exists f, pkg, rest.
  - intros [[Hpkg Hst]|(f & pkg & rest & -> & Hpkg & Hst)].
    + by exists [], l, ls.
    + by exists (l :: f), pkg, rest.
Qed.

Lemma extended_states_loop p ls : forall v,
  p ∈ ExtendedStates.manual_packages (foldl ExtendedStates.step v ls) <->
  p ∈ ExtendedStates.manual_packages v
  \/ (p ≠ "" /\ ExtendedStates.package_name v = Some p
      /\ added_after (ExtendedStates.auto_installed v) ls)
  \/ (p ≠ "" /\ package_then_added p ls).
Proof.
  induction ls as [|l ls IH]; intros v; cbn [foldl].
  { pose proof (added_after_nil (ExtendedStates.auto_installed v)).
    pose proof (package_then_added_nil p). tauto. }
  rewrite IH, added_after_cons, package_then_added_cons.
  unfold ExtendedStates.step, is_package_line, is_other_line, flag_step.
  fold (package_of l). fold (is_flag_line l). fold (flag_of l).
  destruct (Py.startswith "Package: " l) eqn:Hpkg;
    cbn [andb negb ExtendedStates.package_name
         ExtendedStates.auto_installed ExtendedStates.manual_packages].
  { rewrite String.eqb_eq. intuition (subst; try congruence). }
  destruct (is_flag_line l) eqn:Hflag;
    cbn [andb negb ExtendedStates.package_name
         ExtendedStates.auto_installed ExtendedStates.manual_packages].
  { intuition congruence. }
  destruct (Py.truthy (ExtendedStates.package_name v)) eqn:Ht;
    [destruct (ExtendedStates.auto_installed v) eqn:Hauto|];
    cbn [andb negb ExtendedStates.package_name
         ExtendedStates.auto_installed ExtendedStates.manual_packages].
  - intuition congruence.
  - apply truthy_spec in Ht as (n & Hn & Hne). rewrite Hn.
    change (default "" (Some n)) with n.
    rewrite elem_of_union, elem_of_singleton.
    destruct (decide (p = n)) as [->|Hpn].
    { split; intros _; [right; left; auto|left; by left]. }
    intuition congruence.
  - assert (~ (p ≠ "" /\ ExtendedStates.package_name v = Some p)).
    { intros [Hne Hn]. rewrite Hn in Ht. by destruct p. }
    intuition congruence.
Qed.

(** X9. A name is in the set of the extended-states reader exactly when it
    is not empty and, after a [Package: ] line that names it and before the
    next [Package: ] line, a line that is neither a [Package: ] nor an
    [Auto-Installed: ] line is read while the flag is off, that is, while
    the last [Auto-Installed: ] line since the name, if any, does not say
    [yes]. *)
Theorem extended_states_added_iff (ls : list string) (p : string) :
  p ∈ ExtendedStates.parse ls <-> p ≠ "" /\ package_then_added p ls.
Proof.
  unfold ExtendedStates.parse. rewrite extended_states_loop.
  cbn [ExtendedStates.init ExtendedStates.manual_packages
       ExtendedStates.package_name].
  rewrite elem_of_empty. intuition congruence.
Qed.

(** One record in the plain layout, from any state. *)
Lemma other_lines_loop p ls : forall v,
  forallb is_other_line ls = true ->
  let v' := foldl ExtendedStates.step v ls in
  ExtendedStates.package_name v' = ExtendedStates.package_name v
  /\ ExtendedStates.auto_installed v' = ExtendedStates.auto_installed v
  /\ (p ∈ ExtendedStates.manual_packages v' <->
      p ∈ ExtendedStates.manual_packages v
      \/ (ls ≠ [] /\ p ≠ "" /\ ExtendedStates.package_name v = Some p
          /\ ExtendedStates.auto_installed v = false)).
Proof.
  induction ls as [|l ls IH]; intros v Hls; cbn [foldl].
  { cbv zeta. repeat split; [by left|]. intros [?|[[] _]]; done. }
  cbn [forallb] in Hls. apply andb_prop in Hls as [Hl Hls].
  specialize (IH (ExtendedStates.step v l) Hls). cbv zeta in *.
  destruct IH as (-> & -> & ->).
  unfold is_other_line, is_flag_line in Hl.
  apply andb_prop in Hl as [Hpkg%negb_true_iff Hflag%negb_true_iff].
  unfold ExtendedStates.step. rewrite Hpkg, Hflag.
  destruct (Py.truthy (ExtendedStates.package_name v)) eqn:Ht;
    [destruct (ExtendedStates.auto_installed v) eqn:Hauto|];
    cbn [andb negb ExtendedStates.package_name
         ExtendedStates.auto_installed ExtendedStates.manual_packages].
  - repeat split; intuition congruence.
  - apply truthy_spec in Ht as (n & Hn & Hne). rewrite Hn.
    change (default "" (Some n)) with n.
    rewrite elem_of_union, elem_of_singleton.
    repeat split; [|intuition (subst; try congruence)].
    intros [[->|?]|(_ & ? & [= ->] & _)]; [|by left|];
      right; repeat split; congruence.
  - assert (~ (p ≠ "" /\ ExtendedStates.package_name v = Some p)).
    { intros [Hne Hn]. rewrite Hn in Ht. by destruct p. }
    repeat split; intuition congruence.
Qed.

Lemma plain_record_loop p r v :
  plain_record_ok r = true ->
  p ∈ ExtendedStates.manual_packages
        (foldl ExtendedStates.step v (plain_record_lines r)) <->
  p ∈ ExtendedStates.manual_packages v
  \/ (p ≠ "" /\ package_of (package_line r) = p
      /\ plain_record_flag r = false).
Proof.
  unfold plain_record_ok, plain_record_lines, plain_record_flag.
  intros [[[Hpkg Hflag]%andb_prop Hother]%andb_prop Hne%negb_true_iff]
    %andb_prop.
  apply bool_decide_eq_false in Hne.
  cbn [foldl]. rewrite foldl_app.
  set (v1 := ExtendedStates.step v (package_line r)).
  assert (Hv1 : v1 = ExtendedStates.Vars (Some (package_of (package_line r)))
                       false (ExtendedStates.manual_packages v)).
  { unfold v1, ExtendedStates.step. by rewrite Hpkg. }
  set (v2 := foldl ExtendedStates.step v1 (option_list (flag_line r))).
  assert (Hv2 : v2 = ExtendedStates.Vars (Some (package_of (package_line r)))
                       (from_option flag_of false (flag_line r))
                       (ExtendedStates.manual_packages v)).
  { unfold v2. rewrite Hv1. destruct (flag_line r) as [f|]; [|done].
    change (option_list (Some f)) with [f].
    cbn [foldl from_option] in *. unfold ExtendedStates.step.
    rewrite (flag_line_not_package f Hflag).
    unfold is_flag_line in Hflag. by rewrite Hflag. }
  destruct (other_lines_loop p (other_lines r) v2 Hother) as (_ & _ & ->).
  rewrite Hv2.
  cbn [ExtendedStates.package_name ExtendedStates.auto_installed
       ExtendedStates.manual_packages].
  intuition congruence.
Qed.

Lemma plain_records_loop p rs : forall v,
  forallb plain_record_ok rs = true ->
  p ∈ ExtendedStates.manual_packages
        (foldl ExtendedStates.step v (concat (map plain_record_lines rs))) <->
  p ∈ ExtendedStates.manual_packages v
  \/ (p ≠ "" /\ exists r, r ∈ rs /\ package_of (package_line r) = p
                          /\ plain_record_flag r = false).
Proof.
  induction rs as [|r rs IH]; intros v Hok; cbn [map concat].
  { split; [by left|]. intros [?|[_ (r & []%elem_of_nil & _)]]. done. }
  cbn [forallb] in Hok. apply andb_prop in Hok as [Hr Hrs].
  rewrite foldl_app, (IH _ Hrs), (plain_record_loop p r v Hr). split.
  - intros [[?|(? & ? & ?)]|(? & r' & ? & ? & ?)]; [by left|right..];
      (split; [done|]); [exists r|exists r']; repeat split; try done;
      [left|by right].
  - intros [?|(? & r' & [->|?]%elem_of_cons & ? & ?)];
      [by left; left|by left; right|right; split; [done|by exists r']].
Qed.

(** X10. For a file whose records are in the plain layout, the
    extended-states reader returns exactly the non-empty names of the
    records without an [Auto-Installed: yes] line. *)
Theorem extended_states_plain_records (rs : list plain_record) (p : string) :
  forallb plain_record_ok rs = true ->
  p ∈ ExtendedStates.parse (concat (map plain_record_lines rs)) <->
  p ≠ "" /\ exists r, r ∈ rs /\ package_of (package_line r) = p
                      /\ plain_record_flag r = false.
Proof.
  intros Hok. unfold ExtendedStates.parse.
  rewrite (plain_records_loop p rs _ Hok).
  cbn [ExtendedStates.init ExtendedStates.manual_packages].
  rewrite elem_of_empty. tauto.
Qed.

Lemma extended_states_plain_records_witness :
  "curl" ∈ ExtendedStates.parse (concat (map plain_record_lines curl_records))
  <-> "curl" ≠ ""
      /\ exists r, r ∈ curl_records /\ package_of (package_line r) = "curl"
                   /\ plain_record_flag r = false.
Proof. apply (extended_states_plain_records curl_records "curl"). reflexivity. Defined.

(** ** The status reader on records that start with their name *)

Lemma status_fields_loop p ls : forall v,
  forallb (fun l => negb (Py.startswith "Package: " l)) ls = true ->
  let v' := foldl Status.step v ls in
  Status.package_name v' = Status.package_name v
  /\ (p ∈ Status.auto_packages v' <->
      p ∈ Status.auto_packages v
      \/ (p ≠ "" /\ Status.package_name v = Some p
          /\ existsb is_auto_status ls = true)).
Proof.
  induction ls as [|l ls IH]; intros v Hls; cbn [foldl existsb].
  { cbv zeta. split; [done|]. intuition congruence. }
  cbn [forallb] in Hls. apply andb_prop in Hls as [Hl%negb_true_iff Hls].
  specialize (IH (Status.step v l) Hls). cbv zeta in *.
  destruct IH as (-> & ->). rewrite orb_true_iff.
  unfold Status.step. rewrite Hl. fold (is_auto_status l).
  destruct (is_auto_status l) eqn:Hst;
    [destruct (Py.truthy (Status.package_name v)) eqn:Ht|];
    cbn [Status.package_name Status.auto_packages].
  - apply truthy_spec in Ht as (n & Hn & Hne). rewrite Hn.
    change (default "" (Some n)) with n.
    rewrite elem_of_union, elem_of_singleton. split; [done|].
    destruct (decide (p = n)) as [->|Hpn].
    { split; intros _; [right; auto|left; by left]. }
    intuition congruence.
  - assert (~ (p ≠ "" /\ Status.package_name v = Some p)).
    { intros [Hne Hn]. rewrite Hn in Ht. by destruct p. }
    split; [done|]. intuition congruence.
  - split; [done|]. intuition congruence.
Qed.

Lemma named_records_loop p rs : forall v,
  forallb named_record_ok rs = true ->
  p ∈ Status.auto_packages
        (foldl Status.step v (concat (map named_record_lines rs))) <->
  p ∈ Status.auto_packages v
  \/ (p ≠ "" /\ exists r, r ∈ rs /\ package_of (name_line r) = p
                          /\ existsb is_auto_status (field_lines r) = true).
Proof.
  induction rs as [|r rs IH]; intros v Hok; cbn [map concat].
  { split; [by left|]. intros [?|[_ (r & []%elem_of_nil & _)]]. done. }
  cbn [forallb] in Hok. apply andb_prop in Hok as [Hr Hrs].
  unfold named_record_ok in Hr. apply andb_prop in Hr as [Hname Hfields].
  rewrite foldl_app, (IH _ Hrs). unfold named_record_lines at 1.
  cbn [foldl].
  destruct (status_fields_loop p (field_lines r) (Status.step v (name_line r))
              Hfields) as [_ ->].
  unfold Status.step at 1 2. rewrite Hname.
  cbn [Status.package_name Status.auto_packages].
  fold (package_of (name_line r)). split.
  - intros [[?|(? & [= ?] & ?)]|(? & r' & ? & ? & ?)]; [by left|right..];
      (split; [done|]); [exists r|exists r']; repeat split; try done;
      [left|by right].
  - intros [?|(? & r' & [->|?]%elem_of_cons & ? & ?)];
      [by left; left| left; right; repeat split; congruence
      |right; split; [done|by exists r']].
Qed.

(** X11. For a status file whose records start with their [Package: ] line,
    a name is in the auto-install set exactly when it is not empty and a
    record of that name has a [Status: ] line with the marker. *)
Theorem auto_named_records (rs : list named_record) (p : string) :
  forallb named_record_ok rs = true ->
  p ∈ Status.parse (concat (map named_record_lines rs)) <->
  p ≠ "" /\ exists r, r ∈ rs /\ package_of (name_line r) = p
                      /\ existsb is_auto_status (field_lines r) = true.
Proof.
  intros Hok. unfold Status.parse. rewrite (named_records_loop p rs _ Hok).
  cbn [Status.init Status.auto_packages]. rewrite elem_of_empty. tauto.
Qed.

Lemma auto_named_records_witness :
  "libssl1.1"
    ∈ Status.parse (concat (map named_record_lines status_records))
  <-> "libssl1.1" ≠ ""
      /\ exists r, r ∈ status_records
           /\ package_of (name_line r) = "libssl1.1"
           /\ existsb is_auto_status (field_lines r) = true.
Proof. apply (auto_named_records status_records "libssl1.1"). reflexivity. Defined.

(** ** Install lists *)

Lemma app_cons c s t : String c s +:+ t = String c (s +:+ t).
Proof. reflexivity. Qed.

Lemma app_empty_l s : "" +:+ s = s.
Proof. reflexivity. Qed.

Lemma app_assoc_string s t u : (s +:+ t) +:+ u = s +:+ (t +:+ u).
Proof.
  induction s as [|c s IH]; [done|]. by rewrite !app_cons, IH.
Qed.

Lemma app_length_string s t :
  String.length (s +:+ t) = (String.length s + String.length t)%nat.
Proof.
  induction s as [|c s IH]; [done|]. rewrite app_cons. simpl. by rewrite IH.
Qed.

Lemma all_chars_app p s t :
  Re.all_chars p (s +:+ t) = Re.all_chars p s && Re.all_chars p t.
Proof.
  induction s as [|c s IH]; [done|]. rewrite app_cons. cbn [Re.all_chars].
  by rewrite IH, andb_assoc.
Qed.

(** What may follow an entry: nothing, a comma, or white space. *)
Lemma entry_render e tail :
  entry_ok e = true ->
  match tail with
  | EmptyString => True
  | String c _ => c = ","%char \/ Py.isspace c = true
  end ->
  Re.entry (render_entry e +:+ tail) = Some (e.1, render_entry e, tail).
Proof.
  destruct e as [n [v|]]; unfold entry_ok, render_entry; cbn [fst snd].
  - intros [[Hne%negb_true_iff Hn]%andb_prop
              [Hve%negb_true_iff Hv]%andb_prop]%andb_prop Htail.
    rewrite !app_assoc_string.
    change ("=" +:+ v +:+ tail) with (String "=" (v +:+ tail)).
    unfold Re.entry, Re.name. rewrite span_app by done.
    destruct n as [|c n]; [done|].
    cbn [Re.version_opt Ascii.eqb Bool.eqb]. rewrite span_app; [|done|].
    + by destruct v.
    + destruct tail as [|c' tail]; [done|].
      destruct Htail as [->|Hc']; [done|].
      destruct (Re.is_version_char c') eqn:Hv'; [|done].
      apply version_char_not_space in Hv'. congruence.
  - intros [[Hne%negb_true_iff Hn]%andb_prop _]%andb_prop Htail.
    unfold Re.entry, Re.name. rewrite span_app; [|done|].
    + destruct n as [|c n]; [done|].
      assert (Re.version_opt tail = ("", tail)) as ->.
      { destruct tail as [|c' tail]; [done|]. cbn [Re.version_opt].
        destruct Htail as [->|Hc']; [done|].
        destruct (Ascii.eqb_spec c' "="); [|done]. by subst. }
      by rewrite append_empty_r.
    + destruct tail as [|c' tail]; [done|].
      destruct Htail as [->|Hc']; [done|].
      destruct (Re.is_name_char c') eqn:Hn'; [|done].
      apply name_char_not_space in Hn'. congruence.
Qed.

Lemma render_entry_head e :
  entry_ok e = true ->
  exists c s, render_entry e = String c s /\ Py.isspace c = false.
Proof.
  destruct e as [[|c n] v]; unfold entry_ok, render_entry; cbn [fst snd];
    [done|].
  intros [[_ Hn]%andb_prop _]%andb_prop. cbn [Re.all_chars] in Hn.
  apply andb_prop in Hn as [Hc%name_char_not_space _].
  destruct v; rewrite ?app_cons; eauto.
Qed.

Lemma more_rendered_tail es rest :
  ends_list rest = true ->
  match more_rendered es +:+ rest with
  | EmptyString => True
  | String c _ => c = ","%char \/ Py.isspace c = true
  end.
Proof.
  intros Hrest. destruct es as [|e es]; cbn [more_rendered].
  - rewrite app_empty_l. destruct rest; [done|by right].
  - rewrite !app_cons. by left.
Qed.

Lemma more_entries_rendered es rest : forall fuel,
  forallb entry_ok es = true -> ends_list rest = true ->
  (String.length (more_rendered es +:+ rest) <= fuel)%nat ->
  Re.more_entries fuel (more_rendered es +:+ rest) = more_rendered es.
Proof.
  induction es as [|e es IH]; intros fuel Hes Hrest Hfuel;
    cbn [more_rendered] in *.
  - rewrite app_empty_l. destruct fuel, rest as [|c rest]; try done.
    cbn [Re.more_entries]. destruct (Ascii.eqb_spec c ","); [|done].
    by subst.
  - cbn [forallb] in Hes. apply andb_prop in Hes as [He Hes].
    rewrite !app_cons, app_empty_l in *. rewrite !app_assoc_string in *.
    destruct fuel as [|fuel]; [simpl in Hfuel; lia|].
    cbn [Re.more_entries Ascii.eqb Bool.eqb].
    destruct (render_entry_head e He) as (c & s & Hhead & Hc).
    rewrite Hhead, !app_cons. cbn [Re.span]. 
    replace (Py.isspace " ") with true by reflexivity. rewrite Hc.
    rewrite <- !app_cons, <- Hhead.
    rewrite (entry_render e _ He (more_rendered_tail es rest Hrest)).
    rewrite !app_cons, app_empty_l. do 3 f_equal.
    apply IH; [done..|].
    cbn [String.length] in Hfuel. rewrite app_length_string in Hfuel. lia.
Qed.

Lemma install_pattern_match_list e es rest :
  forallb entry_ok (e :: es) = true -> ends_list rest = true ->
  Re.install_pattern_match ("install " +:+ install_list e es +:+ rest)
  = Some (install_list e es).
Proof.
  cbn [forallb]. intros [He Hes]%andb_prop Hrest.
  unfold Re.install_pattern_match, install_list.
  rewrite !app_cons, app_empty_l.
  replace (Py.startswith "install" _) with true by reflexivity.
  cbn [Py.slice_from]. rewrite !app_assoc_string.
  destruct (render_entry_head e He) as (c & s & Hhead & Hc).
  rewrite Hhead, !app_cons. cbn [Re.span].
  replace (Py.isspace " ") with true by reflexivity. rewrite Hc.
  rewrite <- !app_cons, <- Hhead.
  rewrite (entry_render e _ He (more_rendered_tail es rest Hrest)).
  by rewrite more_entries_rendered.
Qed.

Lemma prefix_app_char p c t : forall x,
  Re.all_chars (fun a => negb (Ascii.eqb a c)) p = true ->
  String.prefix p (x +:+ String c t) = String.prefix p x.
Proof.
  induction p as [|a p IH]; intros x Hp; [by destruct x|].
  cbn [Re.all_chars] in Hp. apply andb_prop in Hp as [Ha%negb_true_iff Hp].
  apply Ascii.eqb_neq in Ha.
  destruct x as [|b x]; rewrite ?app_cons, ?app_empty_l; cbn [String.prefix].
  - by destruct (ascii_dec a c).
  - destruct (ascii_dec a b); [by apply IH|done].
Qed.

Lemma install_pattern_search_skip pre t :
  Py.contains "install" pre = false ->
  Re.install_pattern_search (pre +:+ String " " t)
  = Re.install_pattern_search (String " " t).
Proof.
  induction pre as [|c pre IH]; [done|]. cbn [Py.contains].
  intros [Hhead Hpre]%orb_false_elim. rewrite app_cons.
  cbn [Re.install_pattern_search]. rewrite (IH Hpre).
  unfold Re.install_pattern_match at 1, Py.startswith.
  rewrite <- app_cons, prefix_app_char by reflexivity. by rewrite Hhead.
Qed.

Lemma install_pattern_search_cons c s :
  Re.install_pattern_search (String c s)
  = match Re.install_pattern_match (String c s) with
    | Some packages => Some packages
    | None => Re.install_pattern_search s
    end.
Proof. reflexivity. Qed.

Lemma install_pattern_search_here s packages :
  Re.install_pattern_match s = Some packages ->
  Re.install_pattern_search s = Some packages.
Proof. intros H. destruct s; cbn [Re.install_pattern_search]; by rewrite H. Qed.

Lemma install_pattern_search_line pre e es rest :
  Py.contains "install" pre = false ->
  forallb entry_ok (e :: es) = true -> ends_list rest = true ->
  Re.install_pattern_search
    (pre +:+ " install " +:+ install_list e es +:+ rest)
  = Some (install_list e es).
Proof.
  intros Hpre Hes Hrest.
  change (pre +:+ " install " +:+ install_list e es +:+ rest)
    with (pre +:+ String " " ("install " +:+ install_list e es +:+ rest)).
  rewrite (install_pattern_search_skip _ _ Hpre).
  rewrite install_pattern_search_cons.
  replace (Re.install_pattern_match (String " " _)) with (@None string)
    by reflexivity.
  by apply install_pattern_search_here, install_pattern_match_list.
Qed.

Lemma contains_install_line pre t :
  Py.contains " install " (pre +:+ " install " +:+ t) = true.
Proof.
  induction pre as [|c pre IH].
  - rewrite app_empty_l. destruct t; reflexivity.
  - rewrite app_cons. cbn [Py.contains]. rewrite IH. apply orb_true_r.
Qed.

(** Splitting the text of a list gives back its entries. *)
Lemma split_piece t : forall s,
  Re.all_chars (fun a => negb (Ascii.eqb a ",")) t = true ->
  Py.split_comma_space (t +:+ ", " +:+ s) = t :: Py.split_comma_space s.
Proof.
  induction t as [|c t IH]; intros s Ht; [done|].
  cbn [Re.all_chars] in Ht. apply andb_prop in Ht as [Hc Ht].
  rewrite app_cons. specialize (IH s Ht).
  destruct c as [[] [] [] [] [] [] [] []]; try discriminate Hc;
    cbn [Py.split_comma_space]; by rewrite IH.
Qed.

Lemma split_last t :
  Re.all_chars (fun a => negb (Ascii.eqb a ",")) t = true ->
  Py.split_comma_space t = [t].
Proof.
  induction t as [|c t IH]; intros Ht; [done|].
  cbn [Re.all_chars] in Ht. apply andb_prop in Ht as [Hc Ht].
  specialize (IH Ht).
  destruct c as [[] [] [] [] [] [] [] []]; try discriminate Hc;
    cbn [Py.split_comma_space]; by rewrite IH.
Qed.

Lemma name_char_not_comma c :
  Re.is_name_char c = true -> negb (Ascii.eqb c ",") = true.
Proof. destruct c as [[] [] [] [] [] [] [] []]; vm_compute; congruence. Qed.

Lemma version_char_not_comma c :
  Re.is_version_char c = true -> negb (Ascii.eqb c ",") = true.
Proof. destruct c as [[] [] [] [] [] [] [] []]; vm_compute; congruence. Qed.

Lemma render_entry_no_comma e :
  entry_ok e = true ->
  Re.all_chars (fun a => negb (Ascii.eqb a ",")) (render_entry e) = true.
Proof.
  destruct e as [n [v|]]; unfold entry_ok, render_entry; cbn [fst snd].
  - intros [[_ Hn]%andb_prop [_ Hv]%andb_prop]%andb_prop.
    rewrite !all_chars_app.
    rewrite (all_chars_impl _ _ n name_char_not_comma Hn).
    by rewrite (all_chars_impl _ _ v version_char_not_comma Hv).
  - intros [[_ Hn]%andb_prop _]%andb_prop.
    apply (all_chars_impl _ _ n name_char_not_comma Hn).
Qed.

Lemma split_install_list es : forall e,
  forallb entry_ok (e :: es) = true ->
  Py.split_comma_space (install_list e es) = map render_entry (e :: es).
Proof.
  unfold install_list.
  induction es as [|e' es IH]; intros e; cbn [forallb map more_rendered].
  - intros [He _]%andb_prop. rewrite append_empty_r.
    by apply split_last, render_entry_no_comma.
  - intros [He Hes]%andb_prop.
    rewrite split_piece by by apply render_entry_no_comma.
    by rewrite (IH e' Hes).
Qed.

Lemma add_rendered_entry manual_packages e :
  entry_ok e = true ->
  Logs.add_entry manual_packages (render_entry e)
  = if String.eqb e.1 "." then manual_packages
    else {[ e.1 ]} ∪ manual_packages.
Proof.
  intros He. unfold Logs.add_entry.
  assert (Re.package_name_pattern_match (render_entry e) = Some e.1) as ->.
  { pose proof (entry_render e "" He I) as Hentry.
    rewrite append_empty_r in Hentry.
    unfold Re.package_name_pattern_match. by rewrite Hentry. }
  by destruct (String.eqb e.1 ".").
Qed.

Lemma add_rendered_entries es p : forall manual_packages,
  forallb entry_ok es = true ->
  p ∈ foldl Logs.add_entry manual_packages (map render_entry es) <->
  p ∈ manual_packages \/ (p ≠ "." /\ exists e, e ∈ es /\ e.1 = p).
Proof.
  induction es as [|e es IH]; intros mp Hes; cbn [map foldl].
  { split; [by left|]. intros [?|[_ (e & []%elem_of_nil & _)]]. done. }
  cbn [forallb] in Hes. apply andb_prop in Hes as [He Hes].
  rewrite (IH _ Hes), (add_rendered_entry _ _ He).
  destruct (String.eqb_spec e.1 ".") as [Hdot|Hdot].
  - split.
    + intros [?|(? & e' & ? & ?)]; [by left|right]. split; [done|].
      exists e'. split; [by right|done].
    + intros [?|(? & e' & [->|?]%elem_of_cons & ?)];
        [by left|congruence|right]. split; [done|by exists e'].
  - rewrite elem_of_union, elem_of_singleton. split.
    + intros [[->|?]|(? & e' & ? & ?)]; [right|by left|right].
      * split; [done|]. exists e. split; [left|done].
      * split; [done|]. exists e'. split; [by right|done].
    + intros [?|(? & e' & [->|?]%elem_of_cons & ?)];
        [left; by right|left; by left|right]. split; [done|by exists e'].
Qed.

(** X12. A log line that has, after text without the word [install], the
    word between spaces, a list of entries [name] or [name=version]
    separated by a comma and a space, and then the end of the line or white
    space, adds exactly the names of the entries, the versions stripped and
    a lone dot left out. *)
Theorem install_line_names
    (pre rest : string) (e : string * option string)
    (es : list (string * option string))
    (manual_packages : gset string) (p : string) :
  Py.contains "install" pre = false ->
  forallb entry_ok (e :: es) = true ->
  ends_list rest = true ->
  p ∈ Logs.scan_line manual_packages
        (pre +:+ " install " +:+ install_list e es +:+ rest)
  <-> p ∈ manual_packages
      \/ (p ≠ "." /\ exists e', e' ∈ e :: es /\ e'.1 = p).
Proof.
  intros Hpre Hes Hrest. unfold Logs.scan_line.
  rewrite contains_install_line, install_pattern_search_line by done.
  rewrite split_install_list by done.
  by apply add_rendered_entries.
Qed.

Lemma install_line_names_witness :
  "vim-common"
    ∈ Logs.scan_line ∅
        ("Commandline: apt" +:+ " install "
         +:+ install_list ("vim", None) [("vim-common", Some "2:8.2")]
         +:+ ln " --yes")
  <-> "vim-common" ∈ (∅ : gset string)
      \/ ("vim-common" ≠ "."
          /\ exists e', e' ∈ [("vim", None); ("vim-common", Some "2:8.2")]
                        /\ e'.1 = "vim-common").
Proof.
  apply (install_line_names "Commandline: apt" (ln " --yes") ("vim", None)
           [("vim-common", Some "2:8.2")] ∅ "vim-common"); reflexivity.
Defined.

(** ** Splitting, compressed logs and the length of the report *)

Lemma split_not_nil s : Py.split_comma_space s ≠ [].
Proof.
  assert (Hdefault : forall c s',
    match Py.split_comma_space s' with
    | piece :: pieces => String c piece :: pieces
    | [] => [String c ""]
    end ≠ []) by (intros c s'; by destruct (Py.split_comma_space s')).
  destruct s as [|c s]; [done|].
  destruct c as [[] [] [] [] [] [] [] []];
    try exact (Hdefault _ s).
  destruct s as [|c' s]; [done|].
  destruct c' as [[] [] [] [] [] [] [] []];
    try (match goal with
         | |- Py.split_comma_space (String ?a ?t) ≠ [] => exact (Hdefault a t)
         end).
  cbn [Py.split_comma_space]. done.
Qed.

Lemma join_cons_char c piece pieces :
  join_comma_space (String c piece :: pieces)
  = String c (join_comma_space (piece :: pieces)).
Proof. by destruct pieces. Qed.

Lemma join_split_both s :
  join_comma_space (Py.split_comma_space s) = s
  /\ forall c, join_comma_space (Py.split_comma_space (String c s))
               = String c s.
Proof.
  induction s as [|a s [IH1 IH2]].
  { split; [done|].
    intros c. by destruct c as [[] [] [] [] [] [] [] []]. }
  split; [apply IH2|]. intros c.
  assert (Hdefault :
    join_comma_space
      match Py.split_comma_space (String a s) with
      | piece :: pieces => String c piece :: pieces
      | [] => [String c ""]
      end = String c (String a s)).
  { pose proof (split_not_nil (String a s)) as Hne. specialize (IH2 a).
    destruct (Py.split_comma_space (String a s)) as [|piece pieces];
      [done|]. by rewrite join_cons_char, IH2. }
  destruct c as [[] [] [] [] [] [] [] []]; try exact Hdefault.
  destruct a as [[] [] [] [] [] [] [] []]; try exact Hdefault.
  cbn [Py.split_comma_space].
  pose proof (split_not_nil s) as Hne.
  destruct (Py.split_comma_space s) as [|piece pieces] eqn:Hs; [done|].
  cbn [join_comma_space]. rewrite app_empty_l.
  change (join_comma_space (piece :: pieces))
    with (match pieces with
          | [] => piece
          | _ :: _ => piece +:+ ", " +:+ join_comma_space pieces
          end) in IH1.
  cbn [join_comma_space] in *. by rewrite IH1.
Qed.

(** X13. Splitting a string at the separator loses nothing: the pieces,
    joined with the separator, give the string back, and there is always a
    first piece. *)
Theorem split_join (s : string) :
  join_comma_space (Py.split_comma_space s) = s
  /\ Py.split_comma_space s ≠ [].
Proof. split; [apply join_split_both|apply split_not_nil]. Qed.


